(** * A load-test driver and its mock SOAP responder

    Shallow embedding of [pyApiAtac_mp.py] (the rate-controlled driver) and
    [pyMock_soap_service.py] (the mock responder).

    Conventions of the embedding:
    - Python [int] is [Z]; [str(n)] and the [{n}] field of an f-string are
      the decimal rendering [str].
    - Python [str] and [bytes] are both [string] (a sequence of bytes); the
      [encode('utf-8')] and [decode('utf-8')] steps are the identity on it.
    - Wall-clock readings ([time.time()]) are rationals; every call reads
      the next value of a clock oracle, about which nothing is assumed
      unless a theorem says so.
    - Effects are recorded as a trace of events, exceptions as a [Raised]
      completion. *)

From Stdlib Require Import ZArith QArith List Bool Lia Lqa.
From Stdlib Require Import Strings.String Strings.Ascii.
From Stdlib Require Import Numbers.DecimalString Numbers.DecimalZ Numbers.DecimalPos.
Import ListNotations.

Local Open Scope string_scope.
Local Open Scope Z_scope.

(** ** Python strings *)

Module Py.

(** [str(n)] for an [int]: decimal digits, a leading minus sign when
    negative. *)
Definition str (n : Z) : string := NilZero.string_of_int (Z.to_int n).

(** The double-quote character, for the literals that contain one. *)
Definition dq : string := String (ascii_of_nat 34) EmptyString.

(** The newline character. *)
Definition nl : string := String (ascii_of_nat 10) EmptyString.

(** [s[:n]] for a non-negative [n]. *)
Definition take (n : nat) (s : string) : string := substring 0 n s.

(** [c in s] for a one-character [c]. *)
Fixpoint mem (c : ascii) (s : string) : bool :=
  match s with
  | EmptyString => false
  | String a s' => Ascii.eqb a c || mem c s'
  end.

(** [str(x)] where [x] may be [None]. *)
Definition str_opt (x : option string) : string :=
  match x with
  | Some s => s
  | None => "None"
  end.

End Py.

(** ** Exceptions and completions *)

(** A raised Python exception: its class name and [str(e)]. Every class
    used below derives from [Exception]. *)
Inductive exn : Type :=
| Exn (cls : string) (msg : string).

Definition exn_str (e : exn) : string :=
  match e with Exn _ msg => msg end.

Definition ZeroDivisionError : exn := Exn "ZeroDivisionError" "float division by zero".
Definition TypeError (msg : string) : exn := Exn "TypeError" msg.
Definition ValueError (msg : string) : exn := Exn "ValueError" msg.

(** How a call ends: it returns, or an exception leaves it. *)
Inductive completion (A : Type) : Type :=
| Returned (a : A)
| Raised (e : exn).
Arguments Returned {A} a.
Arguments Raised {A} e.

(** ** Computations with a trace *)

Section Trace.

Context {E : Type}.

(** A computation that emits events of type [E] and either returns or
    raises. *)
Definition M (A : Type) : Type := (list E * completion A)%type.

Definition ret {A} (a : A) : M A := ([], Returned a).

Definition raise {A} (e : exn) : M A := ([], Raised e).

Definition bind {A B} (m : M A) (k : A -> M B) : M B :=
  match m with
  | (tr, Returned a) => let (tr', c) := k a in ((tr ++ tr')%list, c)
  | (tr, Raised e) => (tr, Raised e)
  end.

(** One step: the event, then the step's result. *)
Definition step {A} (ev : E) (r : completion A) : M A := ([ev], r).

(** A step that cannot fail. *)
Definition act (ev : E) : M unit := ([ev], Returned tt).

(** [try: body except Exception as e: handler(e)] *)
Definition try_except {A} (body : M A) (handler : exn -> M A) : M A :=
  match body with
  | (tr, Returned a) => (tr, Returned a)
  | (tr, Raised e) => let (tr', c) := handler e in ((tr ++ tr')%list, c)
  end.

End Trace.

Arguments M E A : clear implicits.

Notation "x <- m ;; k" := (bind m (fun x => k))
  (at level 61, m at next level, right associativity).
Notation "m ;;; k" := (bind m (fun _ => k))
  (at level 61, right associativity).

(** ** The driver, [pyApiAtac_mp.py] *)

Module ApiAtac.

(** Connection settings and test settings (the module-level constants). *)
Record Config : Type := {
  SERVICE_HOST : string;
  SERVICE_PATH : string;
  SERVICE_PORT : Z;
  IS_HTTPS : bool;
  SOAP_ACTION_HEADER : string;
  SOAP_METHOD_NAME : string;
  BASE_PARAMETER_VALUE : Z;
  DURATION_SECONDS : Z;
  TARGET_RATE : Z
}.

(** [TARGET_INTERVAL = 1.0 / TARGET_RATE]. *)
Definition TARGET_INTERVAL (cfg : Config) : Q := (1 / inject_Z (TARGET_RATE cfg))%Q.

(** The values written in the source file. *)
Definition source_config : Config := {|
  SERVICE_HOST := "127.0.0.1";
  SERVICE_PATH := "/soap/endpoint";
  SERVICE_PORT := 8000;
  IS_HTTPS := false;
  SOAP_ACTION_HEADER := "http://ApiAtackDriverExampleProgram.com/IService/ApiMethod";
  SOAP_METHOD_NAME := "ApiMethod";
  BASE_PARAMETER_VALUE := 1000;
  DURATION_SECONDS := 10;
  TARGET_RATE := 1000
|}.

(** [SOAP_ENVELOPE_TEMPLATE.format(method_name=.., param_value=..,
    request_id_tag=..)]. *)
Definition SOAP_ENVELOPE_TEMPLATE_format
    (method_name param_value request_id_tag : string) : string :=
  "<?xml version=" ++ Py.dq ++ "1.0" ++ Py.dq ++ " encoding=" ++ Py.dq ++ "utf-8" ++ Py.dq ++ "?>" ++ Py.nl ++
  "<soap:Envelope xmlns:xsi=" ++ Py.dq ++ "http://www.w3.org/2001/XMLSchema-instance" ++ Py.dq ++
  " xmlns:xsd=" ++ Py.dq ++ "http://www.w3.org/2001/XMLSchema" ++ Py.dq ++
  " xmlns:soap=" ++ Py.dq ++ "http://schemas.xmlsoap.org/soap/envelope/" ++ Py.dq ++ ">" ++ Py.nl ++
  "  <soap:Body>" ++ Py.nl ++
  "    <" ++ method_name ++ " xmlns=" ++ Py.dq ++ "http://ApiAtackDriverExampleProgram.com/" ++ Py.dq ++ ">" ++ Py.nl ++
  "      <requestParameter>" ++ param_value ++ "</requestParameter>" ++ Py.nl ++
  "      " ++ request_id_tag ++ " " ++ Py.nl ++
  "    </" ++ method_name ++ ">" ++ Py.nl ++
  "  </soap:Body>" ++ Py.nl ++
  "</soap:Envelope>".

(** [f"P{process_id}-R{request_count}"] *)
Definition request_id_value (process_id request_count : Z) : string :=
  "P" ++ Py.str process_id ++ "-R" ++ Py.str request_count.

(** [f"<requestId>{request_id_value}</requestId>"] *)
Definition request_id_tag (process_id request_count : Z) : string :=
  "<requestId>" ++ request_id_value process_id request_count ++ "</requestId>".

(** [BASE_PARAMETER_VALUE + request_count] *)
Definition unique_param (cfg : Config) (request_count : Z) : Z :=
  BASE_PARAMETER_VALUE cfg + request_count.

Definition soap_body (cfg : Config) (process_id request_count : Z) : string :=
  SOAP_ENVELOPE_TEMPLATE_format
    (SOAP_METHOD_NAME cfg)
    (Py.str (unique_param cfg request_count))
    (request_id_tag process_id request_count).

(** What the network does to the one connection of a call: each field is
    the result of the corresponding step, an exception when it fails. *)
Record Network : Type := {
  net_connect : completion unit;      (* HTTPConnection(..) / HTTPSConnection(..) *)
  net_request : completion unit;      (* conn.request("POST", ..) *)
  net_getresponse : completion Z;     (* conn.getresponse(), its .status *)
  net_read : completion string;       (* response.read().decode('utf-8') *)
  net_close : completion unit         (* conn.close() *)
}.

(** Observable steps of a call. *)
Inductive event : Type :=
| connect (https : bool) (host : string) (port : Z)
| request (method path body : string) (headers : list (string * string))
| getresponse
| read
| close
| print (line : string).

(** The three log lines. *)
Definition SUCCESS_line (id : string) (param status : Z) : string :=
  "[" ++ id ++ "] SUCCESS. Param: " ++ Py.str param ++ ", Status: " ++ Py.str status.

Definition FAILED_line (id : string) (status : Z) (error_data : string) : string :=
  "[" ++ id ++ "] FAILED. HTTP Status: " ++ Py.str status ++ ", Error: " ++ Py.take 100 error_data.

Definition CRITICAL_line (id : string) (param : Z) (e : exn) : string :=
  "[" ++ id ++ "] CRITICAL ERROR. Param: " ++ Py.str param ++ ", Error: " ++ exn_str e.

Definition send_soap_request
    (cfg : Config) (net : Network) (process_id request_count : Z) : M event unit :=
  let id := request_id_value process_id request_count in
  let param := unique_param cfg request_count in
  let body := soap_body cfg process_id request_count in
  try_except
    (step (connect (IS_HTTPS cfg) (SERVICE_HOST cfg) (SERVICE_PORT cfg)) (net_connect net) ;;;
     let headers :=
       [("Content-Type", "text/xml; charset=utf-8");
        ("Content-Length", Py.str (Z.of_nat (String.length body)));
        ("SOAPAction", SOAP_ACTION_HEADER cfg)] in
     step (request "POST" (SERVICE_PATH cfg) body headers) (net_request net) ;;;
     status <- step getresponse (net_getresponse net) ;;
     (if (200 <=? status) && (status <? 300) then
        response_data <- step read (net_read net) ;;
        act (print (SUCCESS_line id param status))
      else
        error_data <- step read (net_read net) ;;
        act (print (FAILED_line id status error_data))) ;;;
     step close (net_close net))
    (fun e => act (print (CRITICAL_line id param e))).




(** The exchange as the network decides it: the status and the body
    read, or the exception of the first step that fails. *)
Definition exchange (net : Network) : completion (Z * string) :=
  match net_connect net with
  | Raised e => Raised e
  | Returned _ =>
    match net_request net with
    | Raised e => Raised e
    | Returned _ =>
      match net_getresponse net with
      | Raised e => Raised e
      | Returned status =>
        match net_read net with
        | Raised e => Raised e
        | Returned data => Returned (status, data)
        end
      end
    end
  end.



(** *** The control loop: [run_load_test] *)

(** Observable steps of the main process. [Start n] is a successful
    [process.start()] of the unit that runs [send_soap_request(n)];
    [Report] stands for the summary lines (request count, duration,
    rate). *)
Inductive run_event : Type :=
| Banner
| Start (request_count : Z)
| Sleep (seconds : Q)
| Join (request_count : Z) (timeout : Z)
| Report (request_count : Z) (actual_duration actual_rate : Q).

(** [x < y] on clock values. *)
Definition Qltb (x y : Q) : bool := negb (Qle_bool y x).

Section RunLoadTest.

Variable cfg : Config.

(** [clock i] is what the [i]-th call of [time.time()] returns
    (counting from 0). *)
Variable clock : nat -> Q.

(** [start_raises n] is the exception [process.start()] raises for the
    unit of sequence [n], if the operating system refuses to create it. *)
Variable start_raises : Z -> option exn.

(** The local variables of [run_load_test], the number of clock reads so
    far, and the events so far. *)
Record State : Type := {
  reads : nat;
  request_count : Z;
  processes : list Z;
  out : list run_event
}.

Definition time_time (st : State) : Q * State :=
  (clock (reads st),
   {| reads := S (reads st); request_count := request_count st;
      processes := processes st; out := out st |}).

Definition emit (ev : run_event) (st : State) : State :=
  {| reads := reads st; request_count := request_count st;
     processes := processes st; out := (out st ++ [ev])%list |}.

(** The body of the [while] loop: one tick. *)
Definition tick (st : State) : completion unit * State :=
  let n := request_count st + 1 in
  let st := {| reads := reads st; request_count := n;
               processes := processes st; out := out st |} in
  let (iteration_start_time, st) := time_time st in
  let st := {| reads := reads st; request_count := request_count st;
               processes := (processes st ++ [n])%list; out := out st |} in
  match start_raises n with
  | Some e => (Raised e, st)
  | None =>
    let st := emit (Start n) st in
    let (now, st) := time_time st in
    let execution_time := (now - iteration_start_time)%Q in
    let sleep_time := (TARGET_INTERVAL cfg - execution_time)%Q in
    if Qltb 0%Q sleep_time then (Returned tt, emit (Sleep sleep_time) st)
    else (Returned tt, st)
  end.

(** [while (time.time() - start_time) < DURATION_SECONDS: tick], watched
    for at most [fuel] ticks. The result is how the loop ended, or [None]
    when it is still running after [fuel] ticks, with the state reached. *)
Fixpoint while_loop (fuel : nat) (start_time : Q) (st : State)
    : option (completion unit) * State :=
  match fuel with
  | O => (None, st)
  | S fuel' =>
    let (now, st) := time_time st in
    if Qltb (now - start_time)%Q (inject_Z (DURATION_SECONDS cfg)) then
      match tick st with
      | (Returned _, st) => while_loop fuel' start_time st
      | (Raised e, st) => (Some (Raised e), st)
      end
    else (Some (Returned tt), st)
  end.

(** [for p in processes: p.join(timeout=10)] *)
Definition join_all (st : State) : State :=
  fold_left (fun st p => emit (Join p 10) st) (processes st) st.

(** [run_load_test()], its loop watched for at most [fuel] ticks: how
    the call ended ([None] when it is still in the loop) and the events so
    far. *)
Definition run_load_test (fuel : nat) : option (completion unit) * list run_event :=
  let st := {| reads := 0; request_count := 0; processes := []; out := [Banner] |} in
  let (start_time, st) := time_time st in
  match while_loop fuel start_time st with
  | (None, st) => (None, out st)
  | (Some (Raised e), st) => (Some (Raised e), out st)
  | (Some (Returned _), st) =>
    let st := join_all st in
    let (end_time, st) := time_time st in
    let actual_duration := (end_time - start_time)%Q in
    if Qeq_bool actual_duration 0%Q then (Some (Raised ZeroDivisionError), out st)
    else
      let actual_rate := (inject_Z (request_count st) / actual_duration)%Q in
      (Some (Returned tt),
       out (emit (Report (request_count st) actual_duration actual_rate) st))
  end.

End RunLoadTest.

(** The sequence numbers started, the sleeps taken, in order. *)
Definition started (tr : list run_event) : list Z :=
  flat_map (fun ev => match ev with Start n => [n] | _ => [] end) tr.

Definition slept (tr : list run_event) : list Q :=
  flat_map (fun ev => match ev with Sleep d => [d] | _ => [] end) tr.

Definition is_pacing (ev : run_event) : bool :=
  match ev with Start _ | Sleep _ => true | _ => false end.

Definition is_report (ev : run_event) : bool :=
  match ev with Report _ _ _ => true | _ => false end.

Definition is_join (ev : run_event) : bool :=
  match ev with Join _ _ => true | _ => false end.

(** The clock reads of one run: read 0 is [start_time]; tick [i]
    (counting from 0, sequence number [i + 1]) tests the window at read
    [3i + 1], takes [iteration_start_time] at read [3i + 2] and reads the
    clock again at [3i + 3], after the start. *)
Definition window_open (cfg : Config) (clock : nat -> Q) (i : nat) : Prop :=
  (clock (3 * i + 1)%nat - clock 0%nat < inject_Z (DURATION_SECONDS cfg))%Q.

(** [TARGET_INTERVAL - (now - tickStart)] of tick [i]. *)
Definition slack (cfg : Config) (clock : nat -> Q) (i : nat) : Q :=
  (TARGET_INTERVAL cfg - (clock (3 * i + 3)%nat - clock (3 * i + 2)%nat))%Q.

(** What tick [i] does when its start succeeds: one start, then a sleep
    of the slack when the slack is positive. *)
Definition tick_events (cfg : Config) (clock : nat -> Q) (i : nat) : list run_event :=
  Start (Z.of_nat (S i)) ::
  (if Qltb 0%Q (slack cfg clock i) then [Sleep (slack cfg clock i)] else []).

(** Ticks [j], [j + 1], .., [m - 1] in a row. *)
Definition cadence (cfg : Config) (clock : nat -> Q) (j m : nat) : list run_event :=
  flat_map (tick_events cfg clock) (seq j (m - j)).

(** Sequence numbers [1 .. m]. *)
Definition sequence (m : nat) : list Z := map Z.of_nat (seq 1 m).

(** *** Concrete runs *)

(** A clock that advances one second per read. *)
Definition clock_1s (i : nat) : Q := inject_Z (Z.of_nat i).

(** A clock that advances a quarter of a millisecond per read during the
    first tick and then jumps past the window. *)
Definition clock_quarter_ms (i : nat) : Q :=
  if (i <=? 3)%nat then (inject_Z (Z.of_nat i) * (1 # 4000))%Q else 20%Q.

(** A clock that is set back to the start after the second read. *)
Definition clock_set_back (i : nat) : Q :=
  match i with
  | 1%nat => 10%Q
  | _ => 0%Q
  end.

(** A clock too coarse to tell the reads of a short run apart. *)
Definition clock_frozen (i : nat) : Q := 0%Q.

(** The source's settings with [DURATION_SECONDS = 0]. *)
Definition zero_duration_config : Config := {|
  SERVICE_HOST := SERVICE_HOST source_config;
  SERVICE_PATH := SERVICE_PATH source_config;
  SERVICE_PORT := SERVICE_PORT source_config;
  IS_HTTPS := IS_HTTPS source_config;
  SOAP_ACTION_HEADER := SOAP_ACTION_HEADER source_config;
  SOAP_METHOD_NAME := SOAP_METHOD_NAME source_config;
  BASE_PARAMETER_VALUE := BASE_PARAMETER_VALUE source_config;
  DURATION_SECONDS := 0;
  TARGET_RATE := TARGET_RATE source_config
|}.

Definition never_raises (n : Z) : option exn := None.

Definition BlockingIOError : exn :=
  Exn "BlockingIOError" "[Errno 11] Resource temporarily unavailable".

(** The operating system refuses the second process. *)
Definition second_start_raises (n : Z) : option exn :=
  if n =? 2 then Some BlockingIOError else None.



(** *** Further observations *)

(** The requests sent by a call, and whether it closed its connection. *)
Definition requests (tr : list event)
    : list (string * string * string * list (string * string)) :=
  flat_map
    (fun ev => match ev with
               | request m p b hs => [(m, p, b, hs)]
               | _ => []
               end) tr.

Definition is_close (ev : event) : bool :=
  match ev with close => true | _ => false end.

Definition is_connect (ev : event) : bool :=
  match ev with connect _ _ _ => true | _ => false end.

(** The clock never runs backwards. *)
Definition monotone (clock : nat -> Q) : Prop :=
  forall i j : nat, (i <= j)%nat -> (clock i <= clock j)%Q.

(** [time.sleep(d)] does not return early: when tick [i] sleeps, the
    window test of the next tick reads the clock at least [d] later than
    the read after the start. *)
Definition sleep_honoured (cfg : Config) (clock : nat -> Q) : Prop :=
  forall i : nat,
    (0 < slack cfg clock i)%Q ->
    (clock (3 * i + 3)%nat + slack cfg clock i <= clock (3 * S i + 1)%nat)%Q.

(** A clock on which every tick takes no time but its sleep, which
    lasts exactly a millisecond. *)
Definition clock_paced (i : nat) : Q :=
  (inject_Z (Z.of_nat ((i + 2) / 3)) * (1 # 1000))%Q.

(** The run of the source's settings on [clock_1s]. *)
Definition trace_1s : list run_event :=
  [Banner; Start 1; Start 2; Start 3; Join 1 10; Join 2 10; Join 3 10;
   Report 3 11%Q (3 # 11)%Q].

End ApiAtac.

(** ** The mock responder, [pyMock_soap_service.py] *)

Module MockService.

Definition HOST : string := "127.0.0.1".
Definition PORT : Z := 8000.
Definition SERVICE_PATH : string := "/soap/endpoint".
Definition SOAP_METHOD_NAME : string := "ApiMethod".
Definition PARAM_TAG_NAME : string := "requestParameter".
Definition REQUEST_ID_TAG_NAME : string := "requestId".
Definition TARGET_NAMESPACE : string := "http://tempuri.org/".
Definition SOAP_NAMESPACE : string := "http://schemas.xmlsoap.org/soap/envelope/".
Definition CLIENT_TARGET_NAMESPACE : string := "http://ApiAtackDriverExampleProgram.com/".

(** [SOAP_RESPONSE_TEMPLATE.format(..)] *)
Definition SOAP_RESPONSE_TEMPLATE_format
    (method_name target_namespace received_param timestamp received_request_id : string)
    : string :=
  "<?xml version=" ++ Py.dq ++ "1.0" ++ Py.dq ++ " encoding=" ++ Py.dq ++ "utf-8" ++ Py.dq ++ "?>" ++ Py.nl ++
  "<soap:Envelope xmlns:soap=" ++ Py.dq ++ "http://schemas.xmlsoap.org/soap/envelope/" ++ Py.dq ++
  " xmlns:xsi=" ++ Py.dq ++ "http://www.w3.org/2001/XMLSchema-instance" ++ Py.dq ++
  " xmlns:xsd=" ++ Py.dq ++ "http://www.w3.org/2001/XMLSchema" ++ Py.dq ++ ">" ++ Py.nl ++
  "    <soap:Body>" ++ Py.nl ++
  "        <" ++ method_name ++ "Response xmlns=" ++ Py.dq ++ target_namespace ++ Py.dq ++ ">" ++ Py.nl ++
  "            <" ++ method_name ++ "Result>" ++ Py.nl ++
  "                <status>SUCCESS</status>" ++ Py.nl ++
  "                <receivedParam>" ++ received_param ++ "</receivedParam>" ++ Py.nl ++
  "                <timestamp>" ++ timestamp ++ "</timestamp>" ++ Py.nl ++
  "                <received_request_id>" ++ received_request_id ++ "</received_request_id>" ++ Py.nl ++
  "            </" ++ method_name ++ "Result>" ++ Py.nl ++
  "        </" ++ method_name ++ "Response>" ++ Py.nl ++
  "    </soap:Body>" ++ Py.nl ++
  "</soap:Envelope>".

(** An [xml.etree.ElementTree.Element]: its tag (a namespaced tag is
    spelled [{uri}local]), its text ([None] when the element has none) and
    its child elements in document order. *)
#[warnings="-register-all"]
Inductive Element : Type :=
| Elem (tag : string) (text : option string) (children : list Element).

Definition tag (e : Element) : string :=
  match e with Elem t _ _ => t end.

Definition text (e : Element) : option string :=
  match e with Elem _ x _ => x end.

Definition children (e : Element) : list Element :=
  match e with Elem _ _ cs => cs end.

(** [e.find(path)] for a path that is a single tag: the first child of
    [e] with that tag, [None] when there is none. *)
Definition find (e : Element) (path : string) : option Element :=
  List.find (fun c => String.eqb (tag c) path) (children e).

(** [f"{{{namespace}}}{name}"] *)
Definition qname (namespace name : string) : string :=
  "{" ++ namespace ++ "}" ++ name.

(** The request as the handler sees it: [self.path], [self.headers[..]]
    ([None] for a header that is not there) and the bytes that [self.rfile]
    still holds. *)
Record Request : Type := {
  path : string;
  headers : string -> option string;
  rfile : string
}.

(** [rfile.read(n)]: at most [n] bytes, everything when [n] is negative. *)
Definition rfile_read (n : Z) (data : string) : string :=
  if n <? 0 then data else Py.take (Z.to_nat n) data.

(** Observable steps of the handler. *)
Inductive event : Type :=
| read (n : Z)
| fromstring (data : string)
| send_response (code : Z)
| send_header (keyword value : string)
| end_headers
| write (data : string)
| print (line : string).

(** 3b: the method element under the SOAP body. *)
Definition find_method_element (body_element : Element) : option Element :=
  let method_xpath_client := qname CLIENT_TARGET_NAMESPACE SOAP_METHOD_NAME in
  match find body_element method_xpath_client with
  | Some method_element => Some method_element
  | None => find body_element SOAP_METHOD_NAME
  end.

(** 3c: the parameter element under the method element. *)
Definition find_param_element (method_element : Element) : option Element :=
  match find method_element (qname CLIENT_TARGET_NAMESPACE PARAM_TAG_NAME) with
  | Some param_element => Some param_element
  | None => find method_element PARAM_TAG_NAME
  end.

(** 3d: the request-id element under the method element. *)
Definition find_request_id_element (method_element : Element) : option Element :=
  match find method_element (qname CLIENT_TARGET_NAMESPACE REQUEST_ID_TAG_NAME) with
  | Some request_id_element => Some request_id_element
  | None => find method_element REQUEST_ID_TAG_NAME
  end.

(** [e] is the first element of [cs] tagged [t]. *)
Definition first_tagged (t : string) (cs : list Element) (e : Element) : Prop :=
  exists pre post,
    cs = (pre ++ e :: post)%list /\ tag e = t /\ Forall (fun c => tag c <> t) pre.

(** No element of [cs] is tagged [t]. *)
Definition untagged (t : string) (cs : list Element) : Prop :=
  Forall (fun c => tag c <> t) cs.

(** The ordered two-tier lookup of [name] among the children [cs]: the
    first child tagged [name] in the caller's namespace; only when there is
    none, the first child tagged [name] in no namespace; [None] when there
    is neither. *)
Inductive two_tier (name : string) (cs : list Element) : option Element -> Prop :=
| in_namespace (e : Element) :
    first_tagged (qname CLIENT_TARGET_NAMESPACE name) cs e ->
    two_tier name cs (Some e)
| in_no_namespace (e : Element) :
    untagged (qname CLIENT_TARGET_NAMESPACE name) cs ->
    first_tagged name cs e ->
    two_tier name cs (Some e)
| in_neither :
    untagged (qname CLIENT_TARGET_NAMESPACE name) cs ->
    untagged name cs ->
    two_tier name cs None.

Section Handler.

(** [urlparse(p).path] *)
Variable urlparse_path : string -> string.

(** [int(s)] for a string [s]; [None] when it raises [ValueError]. *)
Variable int_of_str : string -> option Z.

(** [ET.fromstring(data)]: the root element, or the [ParseError]. *)
Variable ET_fromstring : string -> completion Element.

(** [int(x)] where [x] is a header value or [None]. *)
Definition int (x : option string) : completion Z :=
  match x with
  | None =>
    Raised (TypeError
      "int() argument must be a string, a bytes-like object or a real number, not 'NoneType'")
  | Some s =>
    match int_of_str s with
    | Some n => Returned n
    | None => Raised (ValueError ("invalid literal for int() with base 10: '" ++ s ++ "'"))
    end
  end.

Definition _send_error (code : Z) (message : string) : M event unit :=
  act (send_response code) ;;;
  act (send_header "Content-type" "text/html") ;;;
  act end_headers ;;;
  act (write ("<h1>" ++ Py.str code ++ " " ++ message ++ "</h1>")) ;;;
  act (print ("[ERROR] Sent " ++ Py.str code ++ " response.")).

(** The body of the [try] block: [(received_param, received_request_id)]. *)
Definition parse_request (post_data : string) : M event (option string * string) :=
  let received_request_id := "N/A" in
  root <- step (fromstring post_data) (ET_fromstring post_data) ;;
  match find root (qname SOAP_NAMESPACE "Body") with
  | None => raise (ValueError "SOAP Body element not found.")
  | Some body_element =>
    match find_method_element body_element with
    | None =>
      raise (ValueError ("Method tag <" ++ SOAP_METHOD_NAME ++ "> not found with namespaces."))
    | Some method_element =>
      match find_param_element method_element with
      | None => raise (ValueError ("Parameter tag <" ++ PARAM_TAG_NAME ++ "> not found."))
      | Some param_element =>
        let received_param := text param_element in
        match find_request_id_element method_element with
        | Some request_id_element =>
          match text request_id_element with
          | Some t => ret (received_param, t)
          | None => ret (received_param, received_request_id)
          end
        | None => ret (received_param, received_request_id)
        end
      end
    end
  end.


(** [current_time_stamp] is [time.time()] as the template prints it,
    [readable_time] the same instant as the log lines print it. *)
Definition do_POST (req : Request) (current_time_stamp readable_time : string)
    : M event unit :=
  if negb (String.eqb (urlparse_path (path req)) SERVICE_PATH) then
    _send_error 404 "Not Found"
  else
    content_length <- (([], int (headers req "Content-Length")) : M event Z) ;;
    let post_data := rfile_read content_length (rfile req) in
    act (read content_length) ;;;
    parsed <-
      try_except
        (r <- parse_request post_data ;; ret (Some r))
        (fun e =>
           act (print ("[" ++ readable_time ++ "] XML Parsing Error: " ++ exn_str e)) ;;;
           _send_error 400 ("Bad Request: XML Parsing failed. Error: " ++ exn_str e) ;;;
           ret None) ;;
    match parsed with
    | None => ret tt
    | Some (received_param, received_request_id) =>
      let response_body :=
        SOAP_RESPONSE_TEMPLATE_format SOAP_METHOD_NAME TARGET_NAMESPACE
          (Py.str_opt received_param) current_time_stamp received_request_id in
      act (send_response 200) ;;;
      act (send_header "Content-type" "text/xml; charset=utf-8") ;;;
      act (send_header "Content-Length" (Py.str (Z.of_nat (String.length response_body)))) ;;;
      act end_headers ;;;
      act (write response_body) ;;;
      act (print ("[" ++ readable_time ++ "] [OK] Request ID: " ++ received_request_id ++
                  ", Param: " ++ Py.str_opt received_param))
    end.

End Handler.

(** The status codes sent, and the bodies written, in order. *)
Definition sent_status (tr : list event) : list Z :=
  flat_map (fun ev => match ev with send_response c => [c] | _ => [] end) tr.

Definition written (tr : list event) : list string :=
  flat_map (fun ev => match ev with write d => [d] | _ => [] end) tr.

(** Whether the handler touched the request body. *)
Definition touches_body (ev : event) : bool :=
  match ev with
  | read _ | fromstring _ => true
  | _ => false
  end.

(** The request tree the driver's envelope parses to, for parameter [v]
    and identifier [id]. *)
Definition client_request_tree (v id : string) : Element :=
  Elem (qname SOAP_NAMESPACE "Envelope") None
    [Elem (qname SOAP_NAMESPACE "Body") None
       [Elem (qname CLIENT_TARGET_NAMESPACE SOAP_METHOD_NAME) None
          [Elem (qname CLIENT_TARGET_NAMESPACE PARAM_TAG_NAME) (Some v) [];
           Elem (qname CLIENT_TARGET_NAMESPACE REQUEST_ID_TAG_NAME) (Some id) []]]].

(** *** Concrete requests *)

(** A request path with no query, and a decimal [Content-Length]. *)
Definition urlparse_plain (p : string) : string := p.

Definition int_decimal (s : string) : option Z :=
  option_map Z.of_int (NilZero.int_of_string s).

Definition ParseError : exn := Exn "ParseError" "syntax error: line 1, column 0".

(** A parser that rejects every body, one that reads the driver's
    request, one that reads a request without identifier. *)
Definition parse_rejects (data : string) : completion Element := Raised ParseError.

Definition parse_client_request (data : string) : completion Element :=
  Returned (client_request_tree "1007" "P4242-R7").

Definition parse_without_id (data : string) : completion Element :=
  Returned
    (Elem (qname SOAP_NAMESPACE "Envelope") None
       [Elem (qname SOAP_NAMESPACE "Body") None
          [Elem (qname CLIENT_TARGET_NAMESPACE SOAP_METHOD_NAME) None
             [Elem (qname CLIENT_TARGET_NAMESPACE PARAM_TAG_NAME) (Some "1007") []]]]).

Definition request_with_length (n data : string) : Request := {|
  path := "/soap/endpoint";
  headers := fun k => if String.eqb k "Content-Length" then Some n else None;
  rfile := data
|}.


Definition request_elsewhere : Request := {|
  path := "/other";
  headers := fun k => None;
  rfile := EmptyString
|}.

(** *** Further observations *)

(** The events that write to the connection. *)
Definition is_http (ev : event) : bool :=
  match ev with
  | send_response _ | send_header _ _ | end_headers | write _ => true
  | _ => false
  end.

(** A parser that reads a request whose parameter element is empty, and
    one that reads a request with an empty identifier element in the
    caller's namespace next to a bare one with a text. *)
Definition parse_empty_param (data : string) : completion Element :=
  Returned
    (Elem (qname SOAP_NAMESPACE "Envelope") None
       [Elem (qname SOAP_NAMESPACE "Body") None
          [Elem (qname CLIENT_TARGET_NAMESPACE SOAP_METHOD_NAME) None
             [Elem (qname CLIENT_TARGET_NAMESPACE PARAM_TAG_NAME) None [];
              Elem (qname CLIENT_TARGET_NAMESPACE REQUEST_ID_TAG_NAME)
                (Some "P4242-R7") []]]]).

Definition parse_empty_id (data : string) : completion Element :=
  Returned
    (Elem (qname SOAP_NAMESPACE "Envelope") None
       [Elem (qname SOAP_NAMESPACE "Body") None
          [Elem (qname CLIENT_TARGET_NAMESPACE SOAP_METHOD_NAME) None
             [Elem (qname CLIENT_TARGET_NAMESPACE PARAM_TAG_NAME) (Some "1007") [];
              Elem REQUEST_ID_TAG_NAME (Some "bare") [];
              Elem (qname CLIENT_TARGET_NAMESPACE REQUEST_ID_TAG_NAME) None []]]]).

End MockService.


(** * Properties *)

(** ** Decimal rendering *)

Section StrFacts.

Lemma string_of_uint_no_R (d : Decimal.uint) :
  Py.mem "R" (NilEmpty.string_of_uint d) = false.
Proof.
  induction d; simpl; auto.
Qed.

Lemma str_no_R (n : Z) : Py.mem "R" (Py.str n) = false.
Proof.
  unfold Py.str.
  destruct (Z.to_int n) as [d | d]; simpl;
    destruct d; simpl; auto using string_of_uint_no_R.
Qed.

Lemma to_int_proper (n : Z) :
  Z.to_int n <> Decimal.Pos Decimal.Nil /\ Z.to_int n <> Decimal.Neg Decimal.Nil.
Proof.
  destruct n as [| p | p]; simpl; split; try discriminate;
    intros [= H]; now apply Unsigned.to_uint_nonnil in H.
Qed.

Lemma str_inj (n m : Z) : Py.str n = Py.str m -> n = m.
Proof.
  unfold Py.str. intros H.
  apply DecimalZ.to_int_inj.
  destruct (to_int_proper n) as [Hn1 Hn2], (to_int_proper m) as [Hm1 Hm2].
  pose proof (NilZero.isi _ Hn1 Hn2) as En.
  pose proof (NilZero.isi _ Hm1 Hm2) as Em.
  rewrite H in En. congruence.
Qed.

(** Two strings free of [R] that are followed by the separator [-R] end
    at the same place. *)
Lemma split_at_R (s1 s2 t1 t2 : string) :
  Py.mem "R" s1 = false -> Py.mem "R" s2 = false ->
  s1 ++ "-R" ++ t1 = s2 ++ "-R" ++ t2 ->
  s1 = s2 /\ t1 = t2.
Proof.
  revert s2. induction s1 as [| a s1 IH]; intros [| b s2] H1 H2 E; simpl in *.
  - injection E as E. auto.
  - injection E as Eb E. subst b.
    destruct s2 as [| c s2]; simpl in *.
    + discriminate E.
    + injection E as Ec _. subst c. discriminate H2.
  - injection E as Ea E. subst a.
    destruct s1 as [| c s1]; simpl in *.
    + discriminate E.
    + injection E as Ec _. subst c. discriminate H1.
  - injection E as Eab E. subst b.
    apply orb_false_iff in H1 as [_ H1].
    apply orb_false_iff in H2 as [_ H2].
    destruct (IH s2 H1 H2 E) as [-> ->]. auto.
Qed.

Lemma append_assoc (a b c : string) : (a ++ b) ++ c = a ++ (b ++ c).
Proof.
  induction a as [| x a IH]; cbn; [reflexivity | now rewrite IH].
Qed.

End StrFacts.

(** ** The driver *)

Import ApiAtac.

(** The identifier determines both the process id and the sequence
    number. *)
Lemma request_id_value_inj (p1 n1 p2 n2 : Z) :
  request_id_value p1 n1 = request_id_value p2 n2 -> p1 = p2 /\ n1 = n2.
Proof.
  unfold request_id_value. simpl. intros [= E].
  apply split_at_R in E; auto using str_no_R.
  destruct E as [Ep En]. split; now apply str_inj.
Qed.

(** *** The control loop, tick by tick *)

Section LoopFacts.

Variable cfg : Config.
Variable clock : nat -> Q.
Variable start_raises : Z -> option exn.

Lemma Qltb_lt (x y : Q) : Qltb x y = true <-> (x < y)%Q.
Proof.
  unfold Qltb. rewrite negb_true_iff.
  split.
  - intros H. apply Qnot_le_lt. intros L.
    apply Qle_bool_iff in L. congruence.
  - intros H. destruct (Qle_bool y x) eqn:E; auto.
    apply Qle_bool_iff in E. apply Qle_not_lt in E. tauto.
Qed.

Lemma sequence_snoc (j : nat) :
  (sequence j ++ [Z.of_nat (S j)])%list = sequence (S j).
Proof.
  unfold sequence. rewrite seq_S, map_app. reflexivity.
Qed.

Lemma cadence_nil (j : nat) : cadence cfg clock j j = [].
Proof.
  unfold cadence. now rewrite Nat.sub_diag.
Qed.

Lemma cadence_cons (j m : nat) :
  (j < m)%nat ->
  cadence cfg clock j m = (tick_events cfg clock j ++ cadence cfg clock (S j) m)%list.
Proof.
  intros H. unfold cadence.
  replace (m - j)%nat with (S (m - S j)) by lia.
  reflexivity.
Qed.

(** One tick from a state that is [j] ticks into the run. *)
Lemma tick_spec (j : nat) (st : State) :
  reads st = (3 * j + 2)%nat ->
  request_count st = Z.of_nat j ->
  processes st = sequence j ->
  match start_raises (Z.of_nat (S j)) with
  | Some e =>
    exists st', tick cfg clock start_raises st = (Raised e, st') /\ out st' = out st
  | None =>
    exists st', tick cfg clock start_raises st = (Returned tt, st') /\
      reads st' = (3 * S j + 1)%nat /\
      request_count st' = Z.of_nat (S j) /\
      processes st' = (sequence j ++ [Z.of_nat (S j)])%list /\
      out st' = (out st ++ tick_events cfg clock j)%list
  end.
Proof.
  intros Hr Hc Hp.
  assert (Hn : request_count st + 1 = Z.of_nat (S j)) by lia.
  unfold tick_events, slack.
  replace (3 * j + 3)%nat with (S (3 * j + 2)) by lia.
  replace (3 * S j + 1)%nat with (S (S (3 * j + 2))) by lia.
  generalize dependent (Z.of_nat (S j)). intros n Hn.
  unfold tick, time_time, emit. cbn. rewrite Hn, Hr, Hp.
  destruct (start_raises n) as [e |].
  - eexists. split; reflexivity.
  - destruct (Qltb 0 _) eqn:E.
    + eexists. split; [reflexivity |]. cbn.
      repeat split; auto. now rewrite <- app_assoc.
    + eexists. split; [reflexivity |]. cbn.
      repeat split; auto.
Qed.

(** The loop, whatever the fuel: it has run ticks [j .. m - 1] with the
    window open and every start successful; then it is still running, or
    it has ended because the window is closed at tick [m] or because the
    start of tick [m] raised. *)
Lemma while_loop_spec (fuel : nat) :
  forall (j : nat) (st : State) (c : option (completion unit)) (st' : State),
  reads st = (3 * j + 1)%nat ->
  request_count st = Z.of_nat j ->
  processes st = sequence j ->
  while_loop cfg clock start_raises fuel (clock 0%nat) st = (c, st') ->
  exists m : nat, (j <= m)%nat /\
    out st' = (out st ++ cadence cfg clock j m)%list /\
    (forall i, (j <= i < m)%nat ->
       window_open cfg clock i /\ start_raises (Z.of_nat (S i)) = None) /\
    match c with
    | None => m = (j + fuel)%nat
    | Some (Returned _) =>
      reads st' = (3 * m + 2)%nat /\ request_count st' = Z.of_nat m /\
      processes st' = sequence m /\ ~ window_open cfg clock m
    | Some (Raised e) =>
      window_open cfg clock m /\ start_raises (Z.of_nat (S m)) = Some e
    end.
Proof.
  induction fuel as [| fuel IH]; intros j st c st' Hr Hc Hp H.
  - injection H as <- <-. exists j.
    rewrite cadence_nil, app_nil_r. repeat split; auto; lia.
  - cbn [while_loop] in H. unfold time_time in H. rewrite Hr in H.
    destruct (Qltb _ _) eqn:W in H.
    + apply Qltb_lt in W.
      match type of H with context [tick _ _ _ ?s] => set (st1 := s) in * end.
      assert (Hr1 : reads st1 = (3 * j + 2)%nat) by (cbn; lia).
      pose proof (tick_spec j st1 Hr1 Hc Hp) as T.
      destruct (start_raises (Z.of_nat (S j))) as [e |] eqn:Es.
      * destruct T as (st2 & T & Ho). rewrite T in H. injection H as <- <-.
        exists j. rewrite cadence_nil, app_nil_r.
        repeat split; auto; lia.
      * destruct T as (st2 & T & Hr2 & Hc2 & Hp2 & Ho). rewrite T in H.
        rewrite sequence_snoc in Hp2.
        destruct (IH (S j) st2 c st' Hr2 Hc2 Hp2 H) as (m & Hm & Hout & Hall & Hend).
        exists m. split; [lia |]. split; [| split].
        -- rewrite Hout, Ho, (cadence_cons j m) by lia.
           now rewrite <- app_assoc.
        -- intros i Hi. destruct (Nat.eq_dec i j) as [-> | Hne]; [auto |].
           apply Hall. lia.
        -- destruct c as [[] |]; auto. lia.
    + injection H as <- <-. exists j.
      rewrite cadence_nil, app_nil_r. cbn.
      repeat split; auto; try lia.
      unfold window_open. intros L. apply Qltb_lt in L. congruence.
Qed.

(** The loop ends once the window is closed: when the window is closed at
    tick [j + n], fuel [S n] is enough from tick [j]. *)
Lemma while_loop_ends (n : nat) :
  forall (j : nat) (st : State),
  reads st = (3 * j + 1)%nat ->
  request_count st = Z.of_nat j ->
  processes st = sequence j ->
  ~ window_open cfg clock (j + n) ->
  exists c st', while_loop cfg clock start_raises (S n) (clock 0%nat) st = (Some c, st').
Proof.
  induction n as [| n IH]; intros j st Hr Hc Hp Hw.
  - rewrite Nat.add_0_r in Hw.
    cbn [while_loop]. unfold time_time. rewrite Hr.
    destruct (Qltb _ _) eqn:W.
    + apply Qltb_lt in W. contradiction.
    + eauto.
  - cbn [while_loop]. unfold time_time. rewrite Hr.
    destruct (Qltb _ _) eqn:W; [| eauto].
    match goal with |- context [tick _ _ _ ?s] => set (st1 := s) in * end.
    assert (Hr1 : reads st1 = (3 * j + 2)%nat) by (cbn; lia).
    pose proof (tick_spec j st1 Hr1 Hc Hp) as T.
    destruct (start_raises (Z.of_nat (S j))) as [e |].
    + destruct T as (st2 & T & _). rewrite T. eauto.
    + destruct T as (st2 & T & Hr2 & Hc2 & Hp2 & _). rewrite T.
      rewrite sequence_snoc in Hp2.
      apply (IH (S j) st2); auto.
      now replace (S j + n)%nat with (j + S n)%nat by lia.
Qed.

Lemma join_fold_spec (ps : list Z) :
  forall st : State,
  let st' := fold_left (fun st p => emit (Join p 10) st) ps st in
  reads st' = reads st /\
  request_count st' = request_count st /\
  out st' = (out st ++ map (fun p => Join p 10) ps)%list.
Proof.
  induction ps as [| p ps IH]; intros st; cbn.
  - now rewrite app_nil_r.
  - destruct (IH (emit (Join p 10) st)) as (-> & -> & ->). cbn.
    now rewrite <- app_assoc.
Qed.

Lemma join_all_spec (st : State) :
  reads (join_all st) = reads st /\
  request_count (join_all st) = request_count st /\
  out (join_all st) = (out st ++ map (fun p => Join p 10) (processes st))%list.
Proof.
  apply join_fold_spec.
Qed.

(** [n] ticks in a row with the window open and the start successful
    use up [n] units of fuel and leave the loop [n] ticks further. *)
Lemma while_loop_prefix (n : nat) :
  forall (j : nat) (st : State) (k : nat),
  reads st = (3 * j + 1)%nat ->
  request_count st = Z.of_nat j ->
  processes st = sequence j ->
  (forall i, (j <= i < j + n)%nat ->
     window_open cfg clock i /\ start_raises (Z.of_nat (S i)) = None) ->
  exists st2 : State,
    reads st2 = (3 * (j + n) + 1)%nat /\
    request_count st2 = Z.of_nat (j + n) /\
    processes st2 = sequence (j + n) /\
    out st2 = (out st ++ cadence cfg clock j (j + n))%list /\
    while_loop cfg clock start_raises (n + k) (clock 0%nat) st =
    while_loop cfg clock start_raises k (clock 0%nat) st2.
Proof.
  induction n as [| n IH]; intros j st k Hr Hc Hp Hall.
  - exists st. rewrite Nat.add_0_r, cadence_nil, app_nil_r. auto.
  - destruct (Hall j ltac:(lia)) as [W Es].
    cbn [Nat.add while_loop]. unfold time_time. rewrite Hr.
    apply Qltb_lt in W. unfold window_open in W. rewrite W.
    match goal with |- context [tick _ _ _ ?s] => set (st1 := s) in * end.
    assert (Hr1 : reads st1 = (3 * j + 2)%nat) by (cbn; lia).
    pose proof (tick_spec j st1 Hr1 Hc Hp) as T. rewrite Es in T.
    destruct T as (st2 & T & Hr2 & Hc2 & Hp2 & Ho). rewrite T.
    rewrite sequence_snoc in Hp2.
    destruct (IH (S j) st2 k Hr2 Hc2 Hp2) as (st3 & Hr3 & Hc3 & Hp3 & Ho3 & E).
    { intros i Hi. apply Hall. lia. }
    replace (S j + n)%nat with (j + S n)%nat in * by lia.
    exists st3. repeat split; auto.
    rewrite Ho3, Ho, (cadence_cons j (j + S n)) by lia.
    now rewrite <- app_assoc.
Qed.

(** What a call of [run_load_test] has done. The loop ran ticks
    [0 .. m - 1]; then either it is still running, or the start of tick
    [m] raised, or the window was closed at tick [m], every unit was
    joined, and the rate was computed from the clock read [3m + 2]. *)
Lemma run_load_test_spec (fuel : nat) (c : option (completion unit)) (tr : list run_event) :
  run_load_test cfg clock start_raises fuel = (c, tr) ->
  exists m : nat,
    (forall i, (i < m)%nat ->
       window_open cfg clock i /\ start_raises (Z.of_nat (S i)) = None) /\
    let d := (clock (3 * m + 2)%nat - clock 0%nat)%Q in
    let joins := map (fun p => Join p 10) (sequence m) in
    match c with
    | None => m = fuel /\ tr = Banner :: cadence cfg clock 0 m
    | Some (Raised e) =>
      (window_open cfg clock m /\ start_raises (Z.of_nat (S m)) = Some e /\
       tr = Banner :: cadence cfg clock 0 m) \/
      (~ window_open cfg clock m /\ e = ZeroDivisionError /\ (d == 0)%Q /\
       tr = (Banner :: cadence cfg clock 0 m ++ joins)%list)
    | Some (Returned _) =>
      ~ window_open cfg clock m /\ ~ (d == 0)%Q /\
      tr = (Banner :: cadence cfg clock 0 m ++ joins ++
            [Report (Z.of_nat m) d (inject_Z (Z.of_nat m) / d)%Q])%list
    end.
Proof.
  unfold run_load_test, time_time. cbn [reads request_count processes out].
  match goal with |- context [while_loop _ _ _ _ _ ?s] => set (st0 := s) end.
  destruct (while_loop _ _ _ _ _ st0) as [c' st'] eqn:L.
  apply (while_loop_spec fuel 0 st0) in L; try reflexivity.
  destruct L as (m & _ & Hout & Hall & Hend). cbn in Hout.
  intros H. exists m. split; [intros i Hi; apply Hall; lia |].
  destruct c' as [[[] | e] |].
  - destruct Hend as (Hr & Hc & Hp & Hw).
    destruct (join_all_spec st') as (Jr & Jc & Jo).
    rewrite Jr, Hr in H. rewrite Hp, Hout in Jo.
    destruct (Qeq_bool _ _) eqn:Z in H; injection H as <- <-.
    + right. apply Qeq_bool_iff in Z. cbn. rewrite Jo. auto.
    + apply Qeq_bool_neq in Z. cbn. rewrite Jo, Jc, Hc, <- app_assoc. auto.
  - injection H as <- <-. destruct Hend as [Hw Es]. left. auto.
  - injection H as <- <-. cbn in Hend. auto.
Qed.

(** The converse of [run_load_test_spec]: a run whose first [m] ticks
    find the window open and start their unit ends at tick [m], given
    fuel for it. *)
Lemma run_load_test_complete (m fuel : nat) :
  (forall i, (i < m)%nat ->
     window_open cfg clock i /\ start_raises (Z.of_nat (S i)) = None) ->
  (m < fuel)%nat ->
  let d := (clock (3 * m + 2)%nat - clock 0%nat)%Q in
  let joins := map (fun p => Join p 10) (sequence m) in
  (forall e, window_open cfg clock m -> start_raises (Z.of_nat (S m)) = Some e ->
     run_load_test cfg clock start_raises fuel =
     (Some (Raised e), Banner :: cadence cfg clock 0 m)) /\
  (~ window_open cfg clock m -> (d == 0)%Q ->
     run_load_test cfg clock start_raises fuel =
     (Some (Raised ZeroDivisionError), (Banner :: cadence cfg clock 0 m ++ joins)%list)) /\
  (~ window_open cfg clock m -> ~ (d == 0)%Q ->
     run_load_test cfg clock start_raises fuel =
     (Some (Returned tt),
      (Banner :: cadence cfg clock 0 m ++ joins ++
       [Report (Z.of_nat m) d (inject_Z (Z.of_nat m) / d)%Q])%list)).
Proof.
  intros Hall Hfuel d joins.
  unfold run_load_test, time_time. cbn [reads request_count processes out].
  match goal with |- context [while_loop _ _ _ _ _ ?s] => set (st0 := s) end.
  destruct (while_loop_prefix m 0 st0 (fuel - m)) as (st2 & Hr & Hc & Hp & Ho & E);
    try reflexivity.
  { intros i Hi. apply Hall. lia. }
  replace (m + (fuel - m))%nat with fuel in E by lia.
  rewrite E. cbn [Nat.add] in *. cbn in Ho.
  destruct (fuel - m)%nat as [| k] eqn:F; [lia |].
  cbn [while_loop]. unfold time_time. rewrite Hr.
  split; [| split].
  - intros e W Es. apply Qltb_lt in W. rewrite W.
    match goal with |- context [tick _ _ _ ?s] => set (st3 := s) in * end.
    assert (Hr3 : reads st3 = (3 * m + 2)%nat) by (cbn; lia).
    pose proof (tick_spec m st3 Hr3 Hc Hp) as T. rewrite Es in T.
    destruct T as (st4 & -> & Ho4). rewrite Ho4. cbn. now rewrite Ho.
  - intros W Z.
    destruct (Qltb _ _) eqn:W'; [apply Qltb_lt in W'; contradiction |].
    match goal with |- context [join_all ?s] => set (st3 := s) in * end.
    destruct (join_all_spec st3) as (Jr & Jc & Jo).
    rewrite Jr. cbn [reads st3].
    replace (S (3 * m + 1)) with (3 * m + 2)%nat by lia.
    apply Qeq_bool_iff in Z. fold d. rewrite Z.
    cbn [out]. rewrite Jo. cbn [out processes st3]. now rewrite Ho, Hp.
  - intros W Z.
    destruct (Qltb _ _) eqn:W'; [apply Qltb_lt in W'; contradiction |].
    match goal with |- context [join_all ?s] => set (st3 := s) in * end.
    destruct (join_all_spec st3) as (Jr & Jc & Jo).
    rewrite Jr. cbn [reads st3].
    replace (S (3 * m + 1)) with (3 * m + 2)%nat by lia.
    fold d. destruct (Qeq_bool d 0) eqn:Z'; [apply Qeq_bool_iff in Z'; contradiction |].
    cbn [out emit request_count]. rewrite Jo, Jc. cbn [out processes request_count st3].
    now rewrite Ho, Hp, Hc, <- app_assoc.
Qed.

End LoopFacts.

(** *** Traces of a run *)

Section TraceFacts.

Variable cfg : Config.
Variable clock : nat -> Q.

Lemma started_app (l1 l2 : list run_event) :
  started (l1 ++ l2) = (started l1 ++ started l2)%list.
Proof.
  apply flat_map_app.
Qed.

Lemma slept_app (l1 l2 : list run_event) :
  slept (l1 ++ l2) = (slept l1 ++ slept l2)%list.
Proof.
  apply flat_map_app.
Qed.

Lemma started_tick_events (i : nat) :
  started (tick_events cfg clock i) = [Z.of_nat (S i)].
Proof.
  unfold tick_events. destruct (Qltb _ _); reflexivity.
Qed.

Lemma started_cadence (m j : nat) :
  started (cadence cfg clock j m) = map Z.of_nat (seq (S j) (m - j)).
Proof.
  unfold cadence. generalize (m - j)%nat as n. intros n. revert j.
  induction n as [| n IH]; intros j; [reflexivity |].
  cbn [seq flat_map map]. rewrite started_app, started_tick_events, IH.
  reflexivity.
Qed.

Lemma started_joins (ps : list Z) :
  started (map (fun p => Join p 10) ps) = [].
Proof.
  induction ps; auto.
Qed.

Lemma slept_joins (ps : list Z) :
  slept (map (fun p => Join p 10) ps) = [].
Proof.
  induction ps; auto.
Qed.

Lemma slept_cadence_positive (m j : nat) :
  Forall (fun d => (0 < d)%Q) (slept (cadence cfg clock j m)).
Proof.
  unfold cadence. generalize (m - j)%nat as n. intros n. revert j.
  induction n as [| n IH]; intros j; [constructor |].
  cbn [seq flat_map]. rewrite slept_app. apply Forall_app. split; [| apply IH].
  unfold tick_events. destruct (Qltb _ _) eqn:E; cbn; constructor; auto.
  now apply Qltb_lt.
Qed.

Lemma filter_pacing_cadence (m j : nat) :
  filter is_pacing (cadence cfg clock j m) = cadence cfg clock j m.
Proof.
  unfold cadence. generalize (m - j)%nat as n. intros n. revert j.
  induction n as [| n IH]; intros j; [reflexivity |].
  cbn [seq flat_map]. rewrite filter_app, IH. f_equal.
  unfold tick_events. destruct (Qltb _ _); reflexivity.
Qed.

Lemma cadence_only_paces (m j : nat) :
  existsb is_join (cadence cfg clock j m) = false /\
  existsb is_report (cadence cfg clock j m) = false.
Proof.
  unfold cadence. generalize (m - j)%nat as n. intros n. revert j.
  induction n as [| n IH]; intros j; [auto |].
  cbn [seq flat_map]. rewrite !existsb_app.
  destruct (IH (S j)) as [-> ->].
  unfold tick_events. destruct (Qltb _ _); auto.
Qed.

Lemma joins_no_report (ps : list Z) :
  existsb is_report (map (fun p => Join p 10) ps) = false.
Proof.
  induction ps; auto.
Qed.

Lemma filter_pacing_joins (ps : list Z) :
  filter is_pacing (map (fun p => Join p 10) ps) = [].
Proof.
  induction ps; auto.
Qed.

Lemma NoDup_map_injective {A B : Type} (f : A -> B) (l : list A) :
  (forall x y, In x l -> In y l -> f x = f y -> x = y) ->
  NoDup l -> NoDup (map f l).
Proof.
  intros Hinj Hnd. induction Hnd as [| a l Hnot Hnd IH]; cbn; constructor.
  - intros Hin. apply in_map_iff in Hin as (x & Hfx & Hx).
    assert (x = a) by (apply Hinj; cbn; auto).
    now subst x.
  - apply IH. intros x y Hx Hy. apply Hinj; cbn; auto.
Qed.

Lemma NoDup_sequence (m : nat) : NoDup (sequence m).
Proof.
  unfold sequence. apply NoDup_map_injective.
  - intros x y _ _. apply Nat2Z.inj.
  - apply seq_NoDup.
Qed.

Lemma started_banner (l : list run_event) : started (Banner :: l) = started l.
Proof. reflexivity. Qed.

Lemma slept_banner (l : list run_event) : slept (Banner :: l) = slept l.
Proof. reflexivity. Qed.

Lemma filter_pacing_banner (l : list run_event) :
  filter is_pacing (Banner :: l) = filter is_pacing l.
Proof. reflexivity. Qed.

(** The trace of a run, however far it got: which units it started, how
    it slept. *)
Lemma run_trace (start_raises : Z -> option exn) (fuel : nat) :
  exists m : nat,
    started (snd (run_load_test cfg clock start_raises fuel)) = sequence m /\
    filter is_pacing (snd (run_load_test cfg clock start_raises fuel)) =
      cadence cfg clock 0 m /\
    slept (snd (run_load_test cfg clock start_raises fuel)) =
      slept (cadence cfg clock 0 m).
Proof.
  destruct (run_load_test cfg clock start_raises fuel) as [c tr] eqn:H.
  apply run_load_test_spec in H. destruct H as (m & _ & H).
  exists m. cbn zeta in H. cbn [snd].
  assert (S0 : started (cadence cfg clock 0 m) = sequence m).
  { rewrite started_cadence, Nat.sub_0_r. reflexivity. }
  assert (E : exists rest,
             tr = (Banner :: cadence cfg clock 0 m ++ rest)%list /\
             started rest = [] /\ slept rest = [] /\ filter is_pacing rest = []).
  { destruct c as [[[] | e] |].
    - destruct H as (_ & _ & ->). eexists. split; [reflexivity |].
      rewrite started_app, slept_app, filter_app, started_joins, slept_joins,
        filter_pacing_joins. auto.
    - destruct H as [(_ & _ & ->) | (_ & _ & _ & ->)].
      + exists []. rewrite app_nil_r. auto.
      + eexists. split; [reflexivity |].
        rewrite started_joins, slept_joins, filter_pacing_joins. auto.
    - destruct H as (_ & ->). exists []. rewrite app_nil_r. auto. }
  destruct E as (rest & -> & E1 & E2 & E3).
  rewrite started_banner, slept_banner, filter_pacing_banner.
  rewrite started_app, slept_app, filter_app, E1, E2, E3, S0, filter_pacing_cadence.
  now rewrite !app_nil_r.
Qed.

End TraceFacts.

(** *** Request identifiers *)

(** C1. At any point of any run, the units started so far carry pairwise
    distinct sequence numbers, and so their request identifiers
    [P<process id>-R<sequence>] are pairwise distinct, whatever process id
    each unit gets (even if all units got the same one). *)
Theorem request_identifiers_distinct
    (cfg : Config) (clock : nat -> Q) (start_raises : Z -> option exn)
    (fuel : nat) (pid : Z -> Z) :
  let tr := snd (run_load_test cfg clock start_raises fuel) in
  NoDup (started tr) /\
  NoDup (map (fun n => request_id_value (pid n) n) (started tr)).
Proof.
  cbn zeta.
  destruct (run_trace cfg clock start_raises fuel) as (m & -> & _).
  pose proof (NoDup_sequence m) as Hnd.
  split; [exact Hnd |].
  apply NoDup_map_injective; [| exact Hnd].
  intros x y _ _ E. now apply request_id_value_inj in E.
Qed.

Lemma request_identifiers_distinct_witness :
  run_load_test source_config clock_1s never_raises 10 =
    (Some (Returned tt),
     [Banner; Start 1; Start 2; Start 3; Join 1 10; Join 2 10; Join 3 10;
      Report 3 11%Q (3 # 11)%Q]) /\
  NoDup (map (fun n => request_id_value 4242 n) [1; 2; 3]).
Proof.
  split; [vm_compute; reflexivity |].
  exact (proj2 (request_identifiers_distinct source_config clock_1s never_raises 10
                  (fun _ => 4242))).
Defined.

(** *** The cadence *)

(** C5. A tick whose unit starts reads the clock after the start and
    sleeps [TARGET_INTERVAL - (now - tickStart)] when that amount is
    positive; when it is not, the tick sleeps nothing and ends. So, at any
    point of any run, the starts and sleeps so far are those of ticks
    [0 .. m - 1] in a row, one start per tick, and every sleep is of a
    positive amount. *)
Theorem sleep_only_positive_slack
    (cfg : Config) (clock : nat -> Q) (start_raises : Z -> option exn) :
  (forall st : State,
     start_raises (request_count st + 1) = None ->
     let tick_start := clock (reads st) in
     let now := clock (S (reads st)) in
     let sleep_time := (TARGET_INTERVAL cfg - (now - tick_start))%Q in
     exists st',
       tick cfg clock start_raises st = (Returned tt, st') /\
       (((0 < sleep_time)%Q /\
         out st' = (out st ++ [Start (request_count st + 1); Sleep sleep_time])%list) \/
        ((sleep_time <= 0)%Q /\
         out st' = (out st ++ [Start (request_count st + 1)])%list))) /\
  (forall fuel : nat,
     let tr := snd (run_load_test cfg clock start_raises fuel) in
     (exists m : nat,
        filter is_pacing tr =
          flat_map
            (fun i =>
               let sleep_time :=
                 (TARGET_INTERVAL cfg -
                  (clock (3 * i + 3)%nat - clock (3 * i + 2)%nat))%Q in
               Start (Z.of_nat (S i)) ::
               (if Qltb 0%Q sleep_time then [Sleep sleep_time] else []))
            (seq 0 m)) /\
     Forall (fun d => (0 < d)%Q) (slept tr)).
Proof.
  split.
  - intros st Hs. cbn zeta. unfold tick, time_time, emit. cbn. rewrite Hs.
    destruct (Qltb 0 _) eqn:E.
    + eexists. split; [reflexivity |]. left. cbn.
      split; [now apply Qltb_lt | now rewrite <- app_assoc].
    + eexists. split; [reflexivity |]. right. cbn.
      split; [| reflexivity].
      apply Qnot_lt_le. intros L. apply Qltb_lt in L. congruence.
  - intros fuel. cbn zeta.
    destruct (run_trace cfg clock start_raises fuel) as (m & _ & Hp & Hs).
    split.
    + exists m. rewrite Hp. unfold cadence. now rewrite Nat.sub_0_r.
    + rewrite Hs. apply slept_cadence_positive.
Qed.

Lemma sleep_only_positive_slack_witness :
  run_load_test source_config clock_quarter_ms never_raises 5 =
    (Some (Returned tt),
     [Banner; Start 1; Sleep (12000000 # 16000000000)%Q; Join 1 10;
      Report 1 (80000 # 4000)%Q (4000 # 80000)%Q]) /\
  Forall (fun d => (0 < d)%Q) [(12000000 # 16000000000)%Q].
Proof.
  split; [vm_compute; reflexivity |].
  exact (proj2 (proj2 (sleep_only_positive_slack source_config clock_quarter_ms never_raises)
                  5%nat)).
Defined.

(** *** Failure to start a unit *)

(** C4, as the code has it. When the first [m] ticks find the window
    open and start their unit, and the window is still open at tick [m]
    but [process.start()] raises there, [run_load_test] ends with that
    exception: the trace stops after the ticks before it, so no later tick
    is attempted, no unit is joined and no summary is printed. *)
Theorem start_failure_ends_run
    (cfg : Config) (clock : nat -> Q) (start_raises : Z -> option exn)
    (m fuel : nat) (e : exn) :
  (forall i, (i < m)%nat ->
     window_open cfg clock i /\ start_raises (Z.of_nat (S i)) = None) ->
  window_open cfg clock m ->
  start_raises (Z.of_nat (S m)) = Some e ->
  (m < fuel)%nat ->
  exists tr,
    run_load_test cfg clock start_raises fuel = (Some (Raised e), tr) /\
    started tr = sequence m /\
    existsb is_join tr = false /\
    existsb is_report tr = false.
Proof.
  intros Hall W Es Hfuel.
  destruct (run_load_test_complete cfg clock start_raises m fuel Hall Hfuel) as (R & _ & _).
  specialize (R e W Es).
  exists (Banner :: cadence cfg clock 0 m). split; [exact R |].
  split; [| split].
  - now rewrite started_banner, started_cadence, Nat.sub_0_r.
  - apply (cadence_only_paces cfg clock m 0).
  - apply (cadence_only_paces cfg clock m 0).
Qed.

Lemma start_failure_ends_run_witness :
  exists tr,
    run_load_test source_config clock_1s second_start_raises 10 =
      (Some (Raised BlockingIOError), tr) /\
    started tr = sequence 1 /\
    existsb is_join tr = false /\
    existsb is_report tr = false.
Proof.
  apply (start_failure_ends_run source_config clock_1s second_start_raises 1 10).
  - intros i Hi. assert (i = 0%nat) as -> by lia.
    split; [vm_compute |]; reflexivity.
  - vm_compute. reflexivity.
  - reflexivity.
  - lia.
Defined.

(** C4, as the claim states it, fails: the operating system refuses the
    second process while the window is still open for a third tick, and
    the run ends there with the exception, after one start. *)
Lemma start_failure_not_skipped :
  run_load_test source_config clock_1s second_start_raises 10 =
    (Some (Raised BlockingIOError), [Banner; Start 1]) /\
  window_open source_config clock_1s 2 /\
  second_start_raises 3 = None.
Proof.
  split; [vm_compute; reflexivity |].
  split; [vm_compute |]; reflexivity.
Qed.

(** *** The summary *)

(** C3, as the code has it. When the loop leaves at tick [m] because the
    window is closed, the rate is [request_count / actual_duration],
    unguarded: a zero duration raises [ZeroDivisionError] and nothing is
    reported, any other duration is reported with its rate. On a clock that
    never runs backwards and with a positive [DURATION_SECONDS] the duration
    is at least [DURATION_SECONDS], hence not zero. *)
Theorem rate_is_unguarded_division
    (cfg : Config) (clock : nat -> Q) (start_raises : Z -> option exn)
    (m fuel : nat) :
  (forall i, (i < m)%nat ->
     window_open cfg clock i /\ start_raises (Z.of_nat (S i)) = None) ->
  ~ window_open cfg clock m ->
  (m < fuel)%nat ->
  let actual_duration := (clock (3 * m + 2)%nat - clock 0%nat)%Q in
  ((actual_duration == 0)%Q ->
   exists tr,
     run_load_test cfg clock start_raises fuel = (Some (Raised ZeroDivisionError), tr) /\
     existsb is_report tr = false) /\
  (~ (actual_duration == 0)%Q ->
   exists tr,
     run_load_test cfg clock start_raises fuel =
       (Some (Returned tt),
        (tr ++ [Report (Z.of_nat m) actual_duration
                  (inject_Z (Z.of_nat m) / actual_duration)%Q])%list) /\
     existsb is_report tr = false) /\
  ((0 < DURATION_SECONDS cfg)%Z ->
   (forall i j, (i <= j)%nat -> (clock i <= clock j)%Q) ->
   (inject_Z (DURATION_SECONDS cfg) <= actual_duration)%Q /\ (0 < actual_duration)%Q).
Proof.
  intros Hall W Hfuel d.
  destruct (run_load_test_complete cfg clock start_raises m fuel Hall Hfuel) as (_ & Rz & Rn).
  assert (P : existsb is_report
                (Banner :: cadence cfg clock 0 m ++
                 map (fun p => Join p 10) (sequence m))%list = false).
  { cbn [existsb is_report orb]. rewrite existsb_app, joins_no_report.
    now rewrite (proj2 (cadence_only_paces cfg clock m 0)). }
  split; [| split].
  - intros Z. eexists. split; [apply Rz; auto | exact P].
  - intros Z. eexists. split; [| exact P].
    rewrite (Rn W Z). cbn [app]. now rewrite <- app_assoc.
  - intros HD Hmono.
    assert (L1 : (inject_Z (DURATION_SECONDS cfg) <= clock (3 * m + 1)%nat - clock 0%nat)%Q).
    { apply Qnot_lt_le. exact W. }
    assert (L2 : (clock (3 * m + 1)%nat <= clock (3 * m + 2)%nat)%Q) by (apply Hmono; lia).
    assert (L3 : (0 < inject_Z (DURATION_SECONDS cfg))%Q).
    { change 0%Q with (inject_Z 0). rewrite <- Zlt_Qlt. exact HD. }
    unfold d. split; lra.
Qed.

Lemma rate_is_unguarded_division_witness :
  ~ window_open source_config clock_1s 3 /\
  exists tr,
    run_load_test source_config clock_1s never_raises 10 =
      (Some (Returned tt), (tr ++ [Report 3 11%Q (3 # 11)%Q])%list) /\
    existsb is_report tr = false.
Proof.
  assert (W : ~ window_open source_config clock_1s 3) by (vm_compute; discriminate).
  split; [exact W |].
  assert (Hall : forall i, (i < 3)%nat ->
            window_open source_config clock_1s i /\ never_raises (Z.of_nat (S i)) = None).
  { intros i Hi. split; [| reflexivity].
    destruct i as [| [| [| i]]]; [vm_compute; reflexivity .. | lia]. }
  destruct (rate_is_unguarded_division source_config clock_1s never_raises 3 10
              Hall W ltac:(lia)) as (_ & R & _).
  destruct R as (tr & R & P); [vm_compute; discriminate |].
  exists tr. split; [| exact P].
  rewrite R. reflexivity.
Defined.

(** C3, as the claim states it, fails: with the source's settings, a
    clock that is set back to the start value after the window test makes
    the duration zero; with [DURATION_SECONDS = 0], a clock that does not
    tell the three reads apart does. Both runs end with
    [ZeroDivisionError] and report nothing. *)
Lemma zero_duration_raises :
  run_load_test source_config clock_set_back never_raises 1 =
    (Some (Raised ZeroDivisionError), [Banner]) /\
  run_load_test zero_duration_config clock_frozen never_raises 1 =
    (Some (Raised ZeroDivisionError), [Banner]).
Proof.
  split; vm_compute; reflexivity.
Qed.

(** *** Outcomes of one request *)



(** ** The mock responder *)

Import MockService.

(** *** The two-tier lookup *)

Lemma find_first_tagged (t : string) (cs : list Element) :
  match List.find (fun c => String.eqb (tag c) t) cs with
  | Some e => first_tagged t cs e
  | None => untagged t cs
  end.
Proof.
  induction cs as [| c cs IH]; cbn.
  - constructor.
  - destruct (String.eqb_spec (tag c) t) as [E | N].
    + exists [], cs. repeat split; auto.
    + destruct (List.find _ cs) as [e |].
      * destruct IH as (pre & post & -> & Et & Hpre).
        exists (c :: pre), post. repeat split; auto.
      * constructor; auto.
Qed.

Lemma first_tagged_not_untagged (t : string) (cs : list Element) (e : Element) :
  first_tagged t cs e -> untagged t cs -> False.
Proof.
  intros (pre & post & -> & Et & _) U.
  apply Forall_app in U as [_ U]. inversion U; subst. contradiction.
Qed.

Lemma first_tagged_unique (t : string) (cs : list Element) (e1 e2 : Element) :
  first_tagged t cs e1 -> first_tagged t cs e2 -> e1 = e2.
Proof.
  intros (pre1 & post1 & E1 & T1 & F1) (pre2 & post2 & E2 & T2 & F2).
  subst cs. revert pre2 E2 F2.
  induction pre1 as [| a pre1 IH]; intros [| b pre2] E2 F2; cbn in E2.
  - now injection E2.
  - injection E2 as <- _. inversion F2; subst. contradiction.
  - injection E2 as -> _. inversion F1; subst. contradiction.
  - injection E2 as <- E2. inversion F1; inversion F2; subst. eauto.
Qed.

(** The lookup relation has one answer. *)
Lemma two_tier_functional (name : string) (cs : list Element) (r1 r2 : option Element) :
  two_tier name cs r1 -> two_tier name cs r2 -> r1 = r2.
Proof.
  intros [e1 A1 | e1 U1 B1 | U1 V1] [e2 A2 | e2 U2 B2 | U2 V2]; auto;
    try (f_equal; eapply first_tagged_unique; eassumption);
    exfalso; eauto using first_tagged_not_untagged.
Qed.

Lemma two_tier_find (name : string) (parent : Element) :
  two_tier name (children parent)
    match find parent (qname CLIENT_TARGET_NAMESPACE name) with
    | Some e => Some e
    | None => find parent name
    end.
Proof.
  unfold find.
  pose proof (find_first_tagged (qname CLIENT_TARGET_NAMESPACE name) (children parent)) as H1.
  destruct (List.find _ (children parent)) as [e |] in H1 |- *.
  - now apply in_namespace.
  - pose proof (find_first_tagged name (children parent)) as H2.
    destruct (List.find _ (children parent)) as [e |] in H2 |- *.
    + now apply in_no_namespace.
    + now apply in_neither.
Qed.

(** C9. Each of the method element, the parameter element and the
    identifier element is located by the ordered two-tier lookup among the
    children of its parent: the first child with the tag in the caller's
    namespace, and the first child with the bare tag only when no child has
    the namespaced one. *)
Theorem lookups_are_two_tier (parent : Element) :
  two_tier SOAP_METHOD_NAME (children parent) (find_method_element parent) /\
  two_tier PARAM_TAG_NAME (children parent) (find_param_element parent) /\
  two_tier REQUEST_ID_TAG_NAME (children parent) (find_request_id_element parent).
Proof.
  repeat split; apply two_tier_find.
Qed.

(** A bare [requestId] that comes first in document order does not
    override the namespaced one. *)
Example namespaced_match_wins :
  find_request_id_element
    (Elem "ApiMethod" None
       [Elem "requestId" (Some "bare") [];
        Elem (qname CLIENT_TARGET_NAMESPACE "requestId") (Some "qualified") []]) =
  Some (Elem (qname CLIENT_TARGET_NAMESPACE "requestId") (Some "qualified") []).
Proof.
  reflexivity.
Qed.

(** *** Replies *)

Section ReplyFacts.

Variable urlparse_path : string -> string.
Variable int_of_str : string -> option Z.
Variable ET_fromstring : string -> completion Element.

(** The [try] block parses the body once and does nothing else that
    shows. *)
Lemma parse_request_trace (post_data : string) :
  fst (parse_request ET_fromstring post_data) = [fromstring post_data].
Proof.
  unfold parse_request, step, bind.
  destruct (ET_fromstring post_data) as [root | e]; [| reflexivity].
  destruct (find root _) as [body_element |]; [| reflexivity].
  destruct (find_method_element body_element) as [method_element |]; [| reflexivity].
  destruct (find_param_element method_element) as [param_element |]; [| reflexivity].
  destruct (find_request_id_element method_element) as [request_id_element |];
    [| reflexivity].
  destruct (text request_id_element); reflexivity.
Qed.

(** The reply to a request on the service path whose body is read and
    from which the parameter and the identifier are extracted. *)
Lemma do_POST_extracted (req : Request) (ts rt : string) (n : Z)
    (received_param : option string) (received_request_id : string) :
  urlparse_path (path req) = SERVICE_PATH ->
  int int_of_str (headers req "Content-Length") = Returned n ->
  snd (parse_request ET_fromstring (rfile_read n (rfile req))) =
    Returned (received_param, received_request_id) ->
  exists tr,
    do_POST urlparse_path int_of_str ET_fromstring req ts rt = (tr, Returned tt) /\
    sent_status tr = [200] /\
    written tr =
      [SOAP_RESPONSE_TEMPLATE_format SOAP_METHOD_NAME TARGET_NAMESPACE
         (Py.str_opt received_param) ts received_request_id].
Proof.
  intros Hp Hn Hx. unfold do_POST.
  rewrite Hp, String.eqb_refl, Hn. cbn [negb bind].
  pose proof (parse_request_trace (rfile_read n (rfile req))) as Ht.
  destruct (parse_request _ _) as [tr0 c0]. cbn in Hx, Ht. subst c0 tr0.
  cbn. eexists. split; [reflexivity |]. split; reflexivity.
Qed.




End ReplyFacts.

(** The success envelope holds the parameter in its [receivedParam]
    element and the identifier in its [received_request_id] element. *)
Lemma response_template_echo (v ts id : string) :
  exists pre mid post,
    SOAP_RESPONSE_TEMPLATE_format SOAP_METHOD_NAME TARGET_NAMESPACE v ts id =
    pre ++ "<receivedParam>" ++ v ++ "</receivedParam>" ++ mid ++
    "<received_request_id>" ++ id ++ "</received_request_id>" ++ post.
Proof.
  exists ("<?xml version=" ++ Py.dq ++ "1.0" ++ Py.dq ++ " encoding=" ++ Py.dq ++ "utf-8" ++
          Py.dq ++ "?>" ++ Py.nl ++
          "<soap:Envelope xmlns:soap=" ++ Py.dq ++ "http://schemas.xmlsoap.org/soap/envelope/" ++
          Py.dq ++ " xmlns:xsi=" ++ Py.dq ++ "http://www.w3.org/2001/XMLSchema-instance" ++
          Py.dq ++ " xmlns:xsd=" ++ Py.dq ++ "http://www.w3.org/2001/XMLSchema" ++ Py.dq ++ ">" ++
          Py.nl ++
          "    <soap:Body>" ++ Py.nl ++
          "        <ApiMethodResponse xmlns=" ++ Py.dq ++ "http://tempuri.org/" ++ Py.dq ++ ">" ++
          Py.nl ++
          "            <ApiMethodResult>" ++ Py.nl ++
          "                <status>SUCCESS</status>" ++ Py.nl ++
          "                ").
  exists (Py.nl ++ "                <timestamp>" ++ ts ++ "</timestamp>" ++ Py.nl ++
          "                ").
  exists (Py.nl ++
          "            </ApiMethodResult>" ++ Py.nl ++
          "        </ApiMethodResponse>" ++ Py.nl ++
          "    </soap:Body>" ++ Py.nl ++
          "</soap:Envelope>").
  unfold SOAP_RESPONSE_TEMPLATE_format, SOAP_METHOD_NAME, TARGET_NAMESPACE, Py.dq, Py.nl.
  cbn. do 2 f_equal.
  rewrite !append_assoc. reflexivity.
Qed.

(** C6. A request on the service path whose body is read and parsed,
    whose SOAP body, method element and parameter element are found, and
    whose method element has no identifier child under either tag, is
    answered 200 with the success envelope, [N/A] in the identifier
    field. *)
Theorem missing_identifier_reported_unknown
    (urlparse_path : string -> string) (int_of_str : string -> option Z)
    (ET_fromstring : string -> completion Element)
    (req : Request) (ts rt : string) (n : Z)
    (root body_element method_element param_element : Element) :
  urlparse_path (path req) = SERVICE_PATH ->
  int int_of_str (headers req "Content-Length") = Returned n ->
  ET_fromstring (rfile_read n (rfile req)) = Returned root ->
  find root (qname SOAP_NAMESPACE "Body") = Some body_element ->
  find_method_element body_element = Some method_element ->
  find_param_element method_element = Some param_element ->
  untagged (qname CLIENT_TARGET_NAMESPACE REQUEST_ID_TAG_NAME) (children method_element) ->
  untagged REQUEST_ID_TAG_NAME (children method_element) ->
  exists tr,
    do_POST urlparse_path int_of_str ET_fromstring req ts rt = (tr, Returned tt) /\
    sent_status tr = [200] /\
    written tr =
      [SOAP_RESPONSE_TEMPLATE_format SOAP_METHOD_NAME TARGET_NAMESPACE
         (Py.str_opt (text param_element)) ts "N/A"].
Proof.
  intros Hp Hn Hr Hb Hm Hq U1 U2.
  apply (do_POST_extracted urlparse_path int_of_str ET_fromstring req ts rt n); auto.
  assert (Hi : find_request_id_element method_element = None).
  { pose proof (two_tier_find REQUEST_ID_TAG_NAME method_element) as T.
    apply (two_tier_functional _ _ _ _ T). now apply in_neither. }
  unfold parse_request, step, bind. rewrite Hr, Hb, Hm, Hq, Hi. reflexivity.
Qed.

Lemma missing_identifier_reported_unknown_witness :
  exists tr,
    do_POST urlparse_plain int_decimal parse_without_id
      (request_with_length "9" "<request>") "1700000000.5" "2025-11-30 12:00:00.500" =
      (tr, Returned tt) /\
    sent_status tr = [200] /\
    written tr =
      [SOAP_RESPONSE_TEMPLATE_format SOAP_METHOD_NAME TARGET_NAMESPACE
         "1007" "1700000000.5" "N/A"].
Proof.
  eapply (missing_identifier_reported_unknown urlparse_plain int_decimal parse_without_id
            (request_with_length "9" "<request>") _ _ 9
            _ _ _ (Elem (qname CLIENT_TARGET_NAMESPACE PARAM_TAG_NAME) (Some "1007") []));
    try reflexivity.
  - repeat constructor; discriminate.
  - repeat constructor; discriminate.
Defined.

(** C8. A request on the service path whose body is read and parsed, and
    whose parameter element and identifier element are found with texts
    [v] and [id], is answered 200 with the success envelope, which holds
    [v] in its [receivedParam] element and [id] in its
    [received_request_id] element. *)
Theorem reply_echoes_parameter_and_identifier
    (urlparse_path : string -> string) (int_of_str : string -> option Z)
    (ET_fromstring : string -> completion Element)
    (req : Request) (ts rt : string) (n : Z)
    (root body_element method_element param_element request_id_element : Element)
    (v id : string) :
  urlparse_path (path req) = SERVICE_PATH ->
  int int_of_str (headers req "Content-Length") = Returned n ->
  ET_fromstring (rfile_read n (rfile req)) = Returned root ->
  find root (qname SOAP_NAMESPACE "Body") = Some body_element ->
  find_method_element body_element = Some method_element ->
  find_param_element method_element = Some param_element ->
  text param_element = Some v ->
  find_request_id_element method_element = Some request_id_element ->
  text request_id_element = Some id ->
  exists tr body,
    do_POST urlparse_path int_of_str ET_fromstring req ts rt = (tr, Returned tt) /\
    sent_status tr = [200] /\
    written tr = [body] /\
    body = SOAP_RESPONSE_TEMPLATE_format SOAP_METHOD_NAME TARGET_NAMESPACE v ts id /\
    exists pre mid post,
      body = pre ++ "<receivedParam>" ++ v ++ "</receivedParam>" ++ mid ++
             "<received_request_id>" ++ id ++ "</received_request_id>" ++ post.
Proof.
  intros Hp Hn Hr Hb Hm Hq Hv Hi Hid.
  destruct (do_POST_extracted urlparse_path int_of_str ET_fromstring req ts rt n
              (Some v) id Hp Hn) as (tr & E & S & W).
  { unfold parse_request, step, bind. rewrite Hr, Hb, Hm, Hq, Hi, Hid, Hv. reflexivity. }
  exists tr, (SOAP_RESPONSE_TEMPLATE_format SOAP_METHOD_NAME TARGET_NAMESPACE v ts id).
  repeat split; auto. apply response_template_echo.
Qed.

Lemma reply_echoes_parameter_and_identifier_witness :
  exists tr body,
    do_POST urlparse_plain int_decimal parse_client_request
      (request_with_length "9" "<request>") "1700000000.5" "2025-11-30 12:00:00.500" =
      (tr, Returned tt) /\
    sent_status tr = [200] /\
    written tr = [body] /\
    body = SOAP_RESPONSE_TEMPLATE_format SOAP_METHOD_NAME TARGET_NAMESPACE
             "1007" "1700000000.5" "P4242-R7" /\
    exists pre mid post,
      body = pre ++ "<receivedParam>" ++ "1007" ++ "</receivedParam>" ++ mid ++
             "<received_request_id>" ++ "P4242-R7" ++ "</received_request_id>" ++ post.
Proof.
  eapply (reply_echoes_parameter_and_identifier urlparse_plain int_decimal
            parse_client_request (request_with_length "9" "<request>") _ _ 9);
    reflexivity.
Defined.




(** C10. A POST whose URL path is not the service path is answered 404
    and the handler returns; it neither reads the body nor parses
    anything. *)
Theorem other_path_answered_404
    (urlparse_path : string -> string) (int_of_str : string -> option Z)
    (ET_fromstring : string -> completion Element)
    (req : Request) (ts rt : string) :
  urlparse_path (path req) <> SERVICE_PATH ->
  exists tr,
    do_POST urlparse_path int_of_str ET_fromstring req ts rt = (tr, Returned tt) /\
    sent_status tr = [404] /\
    written tr = ["<h1>404 Not Found</h1>"] /\
    existsb touches_body tr = false.
Proof.
  intros Hp. unfold do_POST.
  destruct (String.eqb_spec (urlparse_path (path req)) SERVICE_PATH) as [E | _];
    [contradiction |].
  cbn. eexists. repeat split.
Qed.

Lemma other_path_answered_404_witness :
  exists tr,
    do_POST urlparse_plain int_decimal parse_client_request request_elsewhere
      "1700000000.5" "2025-11-30 12:00:00.500" = (tr, Returned tt) /\
    sent_status tr = [404] /\
    written tr = ["<h1>404 Not Found</h1>"] /\
    existsb touches_body tr = false.
Proof.
  apply (other_path_answered_404 urlparse_plain int_decimal parse_client_request
           request_elsewhere).
  discriminate.
Defined.

(** * Further properties *)

(** ** The control loop *)

Section RunFacts.

Variable cfg : Config.
Variable clock : nat -> Q.
Variable start_raises : Z -> option exn.

(** X1. At any point of any run, the units started so far carry the
    sequence numbers [1, 2, .., m], in that order and without a gap. *)
Theorem sequence_numbers_consecutive (fuel : nat) :
  exists m : nat,
    started (snd (run_load_test cfg clock start_raises fuel)) = map Z.of_nat (seq 1 m).
Proof.
  destruct (run_trace cfg clock start_raises fuel) as (m & H & _).
  now exists m.
Qed.

(** X2. When [run_load_test] returns, its trace is the banner, the starts
    and sleeps of the loop, then one join with timeout 10 for every unit
    started, in the order of the starts, then the summary: no unit is
    joined before the loop is over, none is left out and none is joined
    twice. *)
Theorem every_started_unit_joined (fuel : nat) (tr : list run_event) :
  run_load_test cfg clock start_raises fuel = (Some (Returned tt), tr) ->
  exists (pacing : list run_event) (summary : run_event),
    tr = (Banner :: pacing ++ map (fun n => Join n 10) (started tr) ++ [summary])%list /\
    filter is_pacing pacing = pacing /\
    is_report summary = true.
Proof.
  intros H.
  apply run_load_test_spec in H. destruct H as (m & _ & H). cbn zeta in H.
  destruct H as (_ & _ & E).
  assert (Hs : started tr = sequence m).
  { rewrite E, started_banner, !started_app, started_cadence, started_joins.
    cbn. now rewrite !app_nil_r, Nat.sub_0_r. }
  rewrite Hs. eexists. eexists. split; [exact E |].
  split; [apply filter_pacing_cadence | reflexivity].
Qed.


(** X4. Once a window test finds the window closed, the call is over:
    watched for that many ticks and one more, it has returned or raised. *)
Theorem run_ends_when_window_closes (n : nat) :
  ~ window_open cfg clock n ->
  exists c tr, run_load_test cfg clock start_raises (S n) = (Some c, tr).
Proof.
  intros W. unfold run_load_test, time_time. cbn [reads request_count processes out].
  match goal with |- context [while_loop _ _ _ _ _ ?s] => set (st0 := s) end.
  destruct (while_loop_ends cfg clock start_raises n 0 st0) as (c & st' & E);
    try reflexivity; auto.
  rewrite E. destruct c as [[] | e]; [| eauto].
  destruct (Qeq_bool _ _); eauto.
Qed.

(** X5. The clock is the only way out of the loop: as long as every
    window test finds the window open and every start succeeds, the loop
    goes on, and after [fuel] ticks it has started [fuel] units and is
    still running. *)
Theorem run_goes_on_while_window_open (fuel : nat) :
  (forall i, (i < fuel)%nat ->
     window_open cfg clock i /\ start_raises (Z.of_nat (S i)) = None) ->
  fst (run_load_test cfg clock start_raises fuel) = None /\
  started (snd (run_load_test cfg clock start_raises fuel)) = map Z.of_nat (seq 1 fuel).
Proof.
  intros Hall. unfold run_load_test, time_time. cbn [reads request_count processes out].
  match goal with |- context [while_loop _ _ _ _ _ ?s] => set (st0 := s) end.
  destruct (while_loop_prefix cfg clock start_raises fuel 0 st0 0)
    as (st2 & _ & _ & _ & Ho & E); try reflexivity.
  { intros i Hi. apply Hall. lia. }
  rewrite Nat.add_0_r in E. rewrite E. cbn [while_loop fst snd].
  split; [reflexivity |].
  rewrite Ho. cbn [out st0 app Nat.add].
  now rewrite started_banner, started_cadence, Nat.sub_0_r.
Qed.

(** The ticks a run has made: their units are the ones started, and each
    found the window open. *)
Lemma run_ticks (fuel : nat) :
  exists m : nat,
    started (snd (run_load_test cfg clock start_raises fuel)) = sequence m /\
    forall i, (i < m)%nat -> window_open cfg clock i.
Proof.
  destruct (run_load_test cfg clock start_raises fuel) as [c tr] eqn:H.
  apply run_load_test_spec in H. destruct H as (m & Hall & H).
  exists m. split; [| intros i Hi; now apply Hall].
  cbn zeta in H. cbn [snd].
  assert (S0 : started (cadence cfg clock 0 m) = sequence m).
  { rewrite started_cadence, Nat.sub_0_r. reflexivity. }
  destruct c as [[[] | e] |].
  - destruct H as (_ & _ & ->).
    rewrite started_banner, !started_app, started_joins, S0. cbn.
    now rewrite !app_nil_r.
  - destruct H as [(_ & _ & ->) | (_ & _ & _ & ->)].
    + now rewrite started_banner.
    + rewrite started_banner, started_app, started_joins, S0. now rewrite app_nil_r.
  - destruct H as (_ & ->). now rewrite started_banner.
Qed.

(** On a clock that never runs backwards and honours the sleeps, the
    window tests of consecutive ticks are at least [TARGET_INTERVAL]
    apart. *)
Lemma ticks_spaced (i : nat) :
  monotone clock -> sleep_honoured cfg clock ->
  (clock (3 * i + 1)%nat + TARGET_INTERVAL cfg <= clock (3 * S i + 1)%nat)%Q.
Proof.
  intros Hm Hs.
  assert (A : (clock (3 * i + 1)%nat <= clock (3 * i + 2)%nat)%Q) by (apply Hm; lia).
  assert (B : (clock (3 * i + 3)%nat <= clock (3 * S i + 1)%nat)%Q) by (apply Hm; lia).
  destruct (Qlt_le_dec 0 (slack cfg clock i)) as [P | N].
  - specialize (Hs i P). unfold slack in Hs. lra.
  - unfold slack in N. lra.
Qed.

Lemma ticks_spaced_from_start (i : nat) :
  monotone clock -> sleep_honoured cfg clock ->
  (clock 0%nat + inject_Z (Z.of_nat i) * TARGET_INTERVAL cfg <= clock (3 * i + 1)%nat)%Q.
Proof.
  intros Hm Hs. induction i as [| i IH].
  - assert (A : (clock 0%nat <= clock (3 * 0 + 1)%nat)%Q) by (apply Hm; lia).
    cbn [Z.of_nat]. change (inject_Z 0) with 0%Q. lra.
  - pose proof (ticks_spaced i Hm Hs) as T.
    rewrite Nat2Z.inj_succ. unfold Z.succ. rewrite inject_Z_plus.
    change (inject_Z 1) with 1%Q. lra.
Qed.

(** X6. On a clock that never runs backwards and honours the sleeps,
    with a positive target rate, a run never starts more than
    [DURATION_SECONDS * TARGET_RATE] units, however long it is watched
    (none at all when that product is not positive). *)
Theorem issued_at_most_duration_times_rate (fuel : nat) :
  (0 < TARGET_RATE cfg)%Z ->
  monotone clock ->
  sleep_honoured cfg clock ->
  (Z.of_nat (List.length (started (snd (run_load_test cfg clock start_raises fuel)))) <=
   Z.max 0 (DURATION_SECONDS cfg * TARGET_RATE cfg))%Z.
Proof.
  intros HR Hm Hs.
  destruct (run_ticks fuel) as (m & -> & Hall).
  unfold sequence. rewrite length_map, length_seq.
  destruct m as [| k]; [lia |].
  specialize (Hall k ltac:(lia)). unfold window_open in Hall.
  pose proof (ticks_spaced_from_start k Hm Hs) as T.
  assert (RQ : (0 < inject_Z (TARGET_RATE cfg))%Q).
  { change 0%Q with (inject_Z 0). now rewrite <- Zlt_Qlt. }
  assert (TI : (TARGET_INTERVAL cfg * inject_Z (TARGET_RATE cfg) == 1)%Q).
  { unfold TARGET_INTERVAL. field. lra. }
  assert (L : (inject_Z (Z.of_nat k) * TARGET_INTERVAL cfg <
               inject_Z (DURATION_SECONDS cfg))%Q) by lra.
  apply (Qmult_lt_compat_r _ _ (inject_Z (TARGET_RATE cfg)) RQ) in L.
  assert (L' : (inject_Z (Z.of_nat k) <
                inject_Z (DURATION_SECONDS cfg * TARGET_RATE cfg))%Q).
  { rewrite inject_Z_mult.
    rewrite <- Qmult_assoc, TI, Qmult_1_r in L. exact L. }
  rewrite <- Zlt_Qlt in L'. lia.
Qed.

(** X7. With [DURATION_SECONDS] zero or negative, on a clock that does
    not run backwards between its first two reads, no unit is started: the
    call joins nothing and reports a count of 0 and a rate of 0 over the
    time between the first read and the third (which must differ, or the
    division raises). *)
Theorem no_start_without_duration (fuel : nat) :
  (DURATION_SECONDS cfg <= 0)%Z ->
  (clock 0%nat <= clock 1%nat)%Q ->
  ~ (clock 2%nat - clock 0%nat == 0)%Q ->
  exists r : Q,
    run_load_test cfg clock start_raises (S fuel) =
      (Some (Returned tt), [Banner; Report 0 (clock 2%nat - clock 0%nat) r]) /\
    (r == 0)%Q.
Proof.
  intros HD H01 Hd.
  destruct (run_load_test_complete cfg clock start_raises 0 (S fuel)) as (_ & _ & R);
    [intros i Hi; lia | lia |].
  assert (W : ~ window_open cfg clock 0).
  { unfold window_open. cbn [Nat.mul Nat.add].
    assert (Q0 : (inject_Z (DURATION_SECONDS cfg) <= 0)%Q).
    { change 0%Q with (inject_Z 0). now rewrite <- Zle_Qle. }
    lra. }
  specialize (R W Hd). cbn in R.
  eexists. split; [exact R |].
  unfold Qdiv. change (inject_Z 0) with 0%Q. lra.
Qed.

End RunFacts.

Lemma every_started_unit_joined_witness :
  exists (pacing : list run_event) (summary : run_event),
    trace_1s =
      (Banner :: pacing ++ map (fun n => Join n 10) (started trace_1s) ++ [summary])%list /\
    filter is_pacing pacing = pacing /\
    is_report summary = true.
Proof.
  apply (every_started_unit_joined source_config clock_1s never_raises 10).
  vm_compute. reflexivity.
Defined.


Lemma run_ends_when_window_closes_witness :
  ~ window_open source_config clock_1s 3 /\
  exists c tr, run_load_test source_config clock_1s never_raises 4 = (Some c, tr).
Proof.
  assert (W : ~ window_open source_config clock_1s 3) by (vm_compute; discriminate).
  split; [exact W |].
  exact (run_ends_when_window_closes source_config clock_1s never_raises 3 W).
Defined.

Lemma run_goes_on_while_window_open_witness :
  fst (run_load_test source_config clock_frozen never_raises 5) = None /\
  started (snd (run_load_test source_config clock_frozen never_raises 5)) =
    map Z.of_nat (seq 1 5).
Proof.
  apply (run_goes_on_while_window_open source_config clock_frozen never_raises 5).
  intros i _. split; [vm_compute |]; reflexivity.
Defined.

Lemma clock_paced_at (i r : nat) :
  (r < 3)%nat ->
  clock_paced (3 * i + 1 + r) = (inject_Z (Z.of_nat (S i)) * (1 # 1000))%Q.
Proof.
  intros Hr. unfold clock_paced.
  replace (3 * i + 1 + r + 2)%nat with (S i * 3 + r)%nat by lia.
  rewrite Nat.div_add_l by lia.
  rewrite (Nat.div_small r 3) by lia.
  now rewrite Nat.add_0_r.
Qed.

Lemma clock_paced_monotone : monotone clock_paced.
Proof.
  intros i j H. unfold clock_paced.
  apply Qmult_le_compat_r; [| discriminate].
  rewrite <- Zle_Qle. apply Nat2Z.inj_le.
  apply Nat.Div0.div_le_mono. lia.
Qed.

Lemma clock_paced_honours_sleep : sleep_honoured source_config clock_paced.
Proof.
  intros i _. unfold slack.
  replace (3 * i + 3)%nat with (3 * i + 1 + 2)%nat by lia.
  replace (3 * i + 2)%nat with (3 * i + 1 + 1)%nat by lia.
  replace (3 * S i + 1)%nat with (3 * S i + 1 + 0)%nat by lia.
  rewrite !clock_paced_at by lia.
  rewrite (Nat2Z.inj_succ (S i)). unfold Z.succ. rewrite inject_Z_plus.
  unfold TARGET_INTERVAL. cbn [TARGET_RATE source_config].
  change (inject_Z 1) with 1%Q. change (inject_Z 1000) with (1000 # 1)%Q.
  assert (E : (1 / (1000 # 1) == 1 # 1000)%Q) by reflexivity.
  rewrite E. lra.
Qed.

Lemma issued_at_most_duration_times_rate_witness :
  (Z.of_nat (List.length
     (started (snd (run_load_test source_config clock_paced never_raises 4)))) <=
   Z.max 0 (10 * 1000))%Z.
Proof.
  apply (issued_at_most_duration_times_rate source_config clock_paced never_raises 4).
  - reflexivity.
  - exact clock_paced_monotone.
  - exact clock_paced_honours_sleep.
Defined.

Lemma no_start_without_duration_witness :
  exists r : Q,
    run_load_test zero_duration_config clock_1s never_raises 1 =
      (Some (Returned tt), [Banner; Report 0 (clock_1s 2%nat - clock_1s 0%nat) r]) /\
    (r == 0)%Q.
Proof.
  apply (no_start_without_duration zero_duration_config clock_1s never_raises 0).
  - vm_compute. discriminate.
  - vm_compute. discriminate.
  - vm_compute. discriminate.
Defined.

(** ** Strings again *)

Section MoreStrFacts.

Lemma mem_append (c : ascii) (a b : string) :
  Py.mem c (a ++ b) = Py.mem c a || Py.mem c b.
Proof.
  induction a as [| x a IH]; cbn; [reflexivity |].
  now rewrite IH, orb_assoc.
Qed.

(** A decimal rendering holds digits and the minus sign only. *)
Lemma str_mem (c : ascii) (n : Z) :
  Py.mem c "-0123456789" = false -> Py.mem c (Py.str n) = false.
Proof.
  cbn [Py.mem]. intros H.
  repeat (apply orb_false_iff in H; destruct H as [? H]).
  assert (U : forall d, Py.mem c (NilEmpty.string_of_uint d) = false).
  { induction d; cbn [NilEmpty.string_of_uint Py.mem]; auto;
      rewrite IHd, orb_false_r; assumption. }
  unfold Py.str.
  destruct (Z.to_int n) as [d | d]; cbn [NilZero.string_of_int Py.mem];
    destruct d; cbn [NilZero.string_of_uint Py.mem]; rewrite ?orb_false_r;
    rewrite ?U, ?orb_false_r; auto;
    repeat match goal with E : _ = false |- _ => rewrite E; clear E end; auto.
Qed.

(** Two strings free of [c] that are followed by [c] end at the same
    place. *)
Lemma split_at_char (c : ascii) (s1 s2 t1 t2 : string) :
  Py.mem c s1 = false -> Py.mem c s2 = false ->
  s1 ++ String c t1 = s2 ++ String c t2 ->
  s1 = s2 /\ t1 = t2.
Proof.
  revert s2. induction s1 as [| a s1 IH]; intros [| b s2] H1 H2 E; cbn in *.
  - injection E as E. auto.
  - injection E as Eb _. subst b. rewrite Ascii.eqb_refl in H2. discriminate.
  - injection E as Ea _. subst a. rewrite Ascii.eqb_refl in H1. discriminate.
  - injection E as Eab E. subst b.
    apply orb_false_iff in H1 as [_ H1].
    apply orb_false_iff in H2 as [_ H2].
    destruct (IH s2 H1 H2 E) as [-> ->]. auto.
Qed.

Lemma append_cancel (a x y : string) : a ++ x = a ++ y -> x = y.
Proof.
  induction a as [| c a IH]; cbn; [auto |].
  intros [= E]. auto.
Qed.

Lemma request_id_value_mem (c : ascii) (p n : Z) :
  Py.mem c "PR-0123456789" = false ->
  Py.mem c (request_id_value p n) = false.
Proof.
  intros H. unfold request_id_value.
  assert (D : Py.mem c "-0123456789" = false).
  { cbn [Py.mem] in *.
    repeat (apply orb_false_iff in H; destruct H as [? H]).
    repeat match goal with E : _ = false |- _ => rewrite E; clear E end.
    reflexivity. }
  rewrite !mem_append, !(str_mem c _ D).
  cbn [Py.mem] in *.
  repeat (apply orb_false_iff in H; destruct H as [? H]).
  repeat match goal with E : _ = false |- _ => rewrite E; clear E end.
  reflexivity.
Qed.

End MoreStrFacts.

(** ** One request *)

Section WorkerFacts.

Variable cfg : Config.




(** X9. A call creates one connection and sends at most one request:
    none when creating the connection fails, and never a second one. The
    request is a POST to the service path whose [Content-Length] header is
    the length of the body. The call closes the connection exactly when the
    exchange was completed; after a failure it does not. *)
Theorem one_request_per_call (net : Network) (process_id request_count : Z) :
  let tr := fst (send_soap_request cfg net process_id request_count) in
  let body := soap_body cfg process_id request_count in
  List.length (filter is_connect tr) = 1%nat /\
  requests tr =
    match net_connect net with
    | Returned _ =>
      [("POST", ApiAtac.SERVICE_PATH cfg, body,
        [("Content-Type", "text/xml; charset=utf-8");
         ("Content-Length", Py.str (Z.of_nat (String.length body)));
         ("SOAPAction", SOAP_ACTION_HEADER cfg)])]
    | Raised _ => []
    end /\
  existsb is_close tr =
    match exchange net with
    | Returned _ => true
    | Raised _ => false
    end.
Proof.
  unfold send_soap_request, exchange.
  destruct net as [[[] | e1] [[] | e2] [status | e3] [data | e4] [[] | e5]];
    cbn; try (repeat split; reflexivity);
    destruct ((200 <=? status) && (status <? 300)); cbn; repeat split; reflexivity.
Qed.

End WorkerFacts.


(** ** Replies of the responder *)

Section MoreReplyFacts.

Variable urlparse_path : string -> string.
Variable int_of_str : string -> option Z.
Variable ET_fromstring : string -> completion Element.

Lemma do_POST_extracted_http (req : Request) (ts rt : string) (n : Z)
    (received_param : option string) (received_request_id : string) :
  urlparse_path (path req) = SERVICE_PATH ->
  int int_of_str (headers req "Content-Length") = Returned n ->
  snd (parse_request ET_fromstring (rfile_read n (rfile req))) =
    Returned (received_param, received_request_id) ->
  exists tr body,
    do_POST urlparse_path int_of_str ET_fromstring req ts rt = (tr, Returned tt) /\
    filter is_http tr =
      [send_response 200;
       send_header "Content-type" "text/xml; charset=utf-8";
       send_header "Content-Length" (Py.str (Z.of_nat (String.length body)));
       end_headers; write body].
Proof.
  intros Hp Hn Hx. unfold do_POST.
  rewrite Hp, String.eqb_refl, Hn. cbn [negb bind].
  pose proof (parse_request_trace ET_fromstring (rfile_read n (rfile req))) as Ht.
  destruct (parse_request _ _) as [tr0 c0]. cbn in Hx, Ht. subst c0 tr0.
  eexists.
  exists (SOAP_RESPONSE_TEMPLATE_format SOAP_METHOD_NAME TARGET_NAMESPACE
            (Py.str_opt received_param) ts received_request_id).
  split; reflexivity.
Qed.

Lemma do_POST_failed_http (req : Request) (ts rt : string) (n : Z) (e : exn) :
  urlparse_path (path req) = SERVICE_PATH ->
  int int_of_str (headers req "Content-Length") = Returned n ->
  snd (parse_request ET_fromstring (rfile_read n (rfile req))) = Raised e ->
  exists tr body,
    do_POST urlparse_path int_of_str ET_fromstring req ts rt = (tr, Returned tt) /\
    filter is_http tr =
      [send_response 400; send_header "Content-type" "text/html";
       end_headers; write body].
Proof.
  intros Hp Hn Hx. unfold do_POST.
  rewrite Hp, String.eqb_refl, Hn. cbn [negb bind].
  pose proof (parse_request_trace ET_fromstring (rfile_read n (rfile req))) as Ht.
  destruct (parse_request _ _) as [tr0 c0]. cbn in Hx, Ht. subst c0 tr0.
  eexists.
  exists ("<h1>" ++ Py.str 400 ++ " " ++
          ("Bad Request: XML Parsing failed. Error: " ++ exn_str e) ++ "</h1>").
  split; reflexivity.
Qed.

Lemma do_POST_elsewhere (req : Request) (ts rt : string) :
  urlparse_path (path req) <> SERVICE_PATH ->
  do_POST urlparse_path int_of_str ET_fromstring req ts rt =
  ([send_response 404; send_header "Content-type" "text/html"; end_headers;
    write "<h1>404 Not Found</h1>"; print "[ERROR] Sent 404 response."],
   Returned tt).
Proof.
  intros Hp. unfold do_POST.
  destruct (String.eqb_spec (urlparse_path (path req)) SERVICE_PATH) as [E | _];
    [contradiction | reflexivity].
Qed.

Lemma do_POST_bad_length (req : Request) (ts rt : string) (e : exn) :
  urlparse_path (path req) = SERVICE_PATH ->
  int int_of_str (headers req "Content-Length") = Raised e ->
  do_POST urlparse_path int_of_str ET_fromstring req ts rt = ([], Raised e).
Proof.
  intros Hp Hn. unfold do_POST. rewrite Hp, String.eqb_refl, Hn. reflexivity.
Qed.



(** X12. An identifier element that is found but has no text counts as
    no identifier: the reply is 200 with [N/A]. The lookup does not go on to
    another identifier element then. *)
Theorem empty_identifier_reported_unknown
    (req : Request) (ts rt : string) (n : Z)
    (root body_element method_element param_element request_id_element : Element) :
  urlparse_path (path req) = SERVICE_PATH ->
  int int_of_str (headers req "Content-Length") = Returned n ->
  ET_fromstring (rfile_read n (rfile req)) = Returned root ->
  find root (qname SOAP_NAMESPACE "Body") = Some body_element ->
  find_method_element body_element = Some method_element ->
  find_param_element method_element = Some param_element ->
  find_request_id_element method_element = Some request_id_element ->
  text request_id_element = None ->
  exists tr,
    do_POST urlparse_path int_of_str ET_fromstring req ts rt = (tr, Returned tt) /\
    sent_status tr = [200] /\
    written tr =
      [SOAP_RESPONSE_TEMPLATE_format SOAP_METHOD_NAME TARGET_NAMESPACE
         (Py.str_opt (text param_element)) ts "N/A"].
Proof.
  intros Hp Hn Hr Hb Hm Hq Hi Ht.
  apply (do_POST_extracted urlparse_path int_of_str ET_fromstring req ts rt n); auto.
  unfold parse_request, step, bind. rewrite Hr, Hb, Hm, Hq, Hi, Ht. reflexivity.
Qed.

(** X13. A parameter element that is found but has no text does not make
    the request fail: the reply is 200 and its [receivedParam] element
    holds the four letters [None]. *)
Theorem empty_parameter_echoed_as_None
    (req : Request) (ts rt : string) (n : Z)
    (root body_element method_element param_element : Element) :
  urlparse_path (path req) = SERVICE_PATH ->
  int int_of_str (headers req "Content-Length") = Returned n ->
  ET_fromstring (rfile_read n (rfile req)) = Returned root ->
  find root (qname SOAP_NAMESPACE "Body") = Some body_element ->
  find_method_element body_element = Some method_element ->
  find_param_element method_element = Some param_element ->
  text param_element = None ->
  exists tr id,
    do_POST urlparse_path int_of_str ET_fromstring req ts rt = (tr, Returned tt) /\
    sent_status tr = [200] /\
    written tr =
      [SOAP_RESPONSE_TEMPLATE_format SOAP_METHOD_NAME TARGET_NAMESPACE "None" ts id].
Proof.
  intros Hp Hn Hr Hb Hm Hq Ht.
  assert (X : exists id,
            snd (parse_request ET_fromstring (rfile_read n (rfile req))) =
            Returned (None, id)).
  { unfold parse_request, step, bind. rewrite Hr, Hb, Hm, Hq, Ht.
    destruct (find_request_id_element method_element) as [i |];
      [destruct (text i) |]; eexists; reflexivity. }
  destruct X as (id & X).
  destruct (do_POST_extracted urlparse_path int_of_str ET_fromstring req ts rt n
              None id Hp Hn X) as (tr & E & S & W).
  exists tr, id. auto.
Qed.

(** X14. A handler that returns has written a reply in order: the status
    line, then the headers, then the end of the headers, then the body. A
    200 reply is declared as XML and its [Content-Length] header is the
    length of its body; a 400 or 404 reply is declared as HTML and has no
    [Content-Length] header. *)
Theorem reply_is_framed (req : Request) (ts rt : string) (tr : list event) :
  do_POST urlparse_path int_of_str ET_fromstring req ts rt = (tr, Returned tt) ->
  exists (code : Z) (body : string),
    filter is_http tr =
      ([send_response code] ++
       (if code =? 200 then
          [send_header "Content-type" "text/xml; charset=utf-8";
           send_header "Content-Length" (Py.str (Z.of_nat (String.length body)))]
        else [send_header "Content-type" "text/html"]) ++
       [end_headers; write body])%list.
Proof.
  intros H.
  destruct (String.eqb_spec (urlparse_path (path req)) SERVICE_PATH) as [Hp | Hp].
  - destruct (int int_of_str (headers req "Content-Length")) as [n | e] eqn:Hn.
    + destruct (snd (parse_request ET_fromstring (rfile_read n (rfile req))))
        as [[rp rid] | e] eqn:Hx.
      * destruct (do_POST_extracted_http req ts rt n rp rid Hp Hn Hx)
          as (tr' & body & E & F).
        rewrite E in H. injection H as <-.
        exists 200, body. exact F.
      * destruct (do_POST_failed_http req ts rt n e Hp Hn Hx) as (tr' & body & E & F).
        rewrite E in H. injection H as <-.
        exists 400, body. exact F.
    + rewrite (do_POST_bad_length req ts rt e Hp Hn) in H. discriminate.
  - rewrite (do_POST_elsewhere req ts rt Hp) in H. injection H as <-.
    exists 404. eexists. reflexivity.
Qed.

End MoreReplyFacts.


Lemma empty_identifier_reported_unknown_witness :
  exists tr,
    do_POST urlparse_plain int_decimal parse_empty_id
      (request_with_length "9" "<request>") "1700000000.5" "2025-11-30 12:00:00.500" =
      (tr, Returned tt) /\
    sent_status tr = [200] /\
    written tr =
      [SOAP_RESPONSE_TEMPLATE_format SOAP_METHOD_NAME TARGET_NAMESPACE
         "1007" "1700000000.5" "N/A"].
Proof.
  eapply (empty_identifier_reported_unknown urlparse_plain int_decimal parse_empty_id
            (request_with_length "9" "<request>") _ _ 9
            _ _ _ (Elem (qname CLIENT_TARGET_NAMESPACE PARAM_TAG_NAME) (Some "1007") []));
    reflexivity.
Defined.

Lemma empty_parameter_echoed_as_None_witness :
  exists tr id,
    do_POST urlparse_plain int_decimal parse_empty_param
      (request_with_length "9" "<request>") "1700000000.5" "2025-11-30 12:00:00.500" =
      (tr, Returned tt) /\
    sent_status tr = [200] /\
    written tr =
      [SOAP_RESPONSE_TEMPLATE_format SOAP_METHOD_NAME TARGET_NAMESPACE
         "None" "1700000000.5" id].
Proof.
  eapply (empty_parameter_echoed_as_None urlparse_plain int_decimal parse_empty_param
            (request_with_length "9" "<request>") _ _ 9);
    reflexivity.
Defined.

Lemma reply_is_framed_witness :
  exists (code : Z) (body : string),
    filter is_http
      (fst (do_POST urlparse_plain int_decimal parse_rejects
              (request_with_length "9" "<garbage")
              "1700000000.5" "2025-11-30 12:00:00.500")) =
      ([send_response code] ++
       (if code =? 200 then
          [send_header "Content-type" "text/xml; charset=utf-8";
           send_header "Content-Length" (Py.str (Z.of_nat (String.length body)))]
        else [send_header "Content-type" "text/html"]) ++
       [end_headers; write body])%list.
Proof.
  apply (reply_is_framed urlparse_plain int_decimal parse_rejects
           (request_with_length "9" "<garbage") "1700000000.5" "2025-11-30 12:00:00.500").
  reflexivity.
Defined.

(** ** Replies and requests *)

Lemma split_at_literal (c : ascii) (l s1 s2 t1 t2 : string) :
  Py.mem c s1 = false -> Py.mem c s2 = false ->
  s1 ++ (String c l ++ t1) = s2 ++ (String c l ++ t2) ->
  s1 = s2 /\ t1 = t2.
Proof.
  intros M1 M2 E. cbn [append] in E.
  apply split_at_char in E; auto.
  destruct E as [E1 E2]. split; [exact E1 |].
  now apply append_cancel in E2.
Qed.

(** X15. The success envelope tells the requests of the driver apart: two
    envelopes that echo decimal parameters and identifiers of the driver's
    form, with timestamps free of [<], are equal only when the parameter,
    the timestamp, the process id and the sequence number are the same. *)
Theorem reply_identifies_request (v1 v2 p1 n1 p2 n2 : Z) (ts1 ts2 : string) :
  Py.mem "<" ts1 = false ->
  Py.mem "<" ts2 = false ->
  SOAP_RESPONSE_TEMPLATE_format SOAP_METHOD_NAME TARGET_NAMESPACE
    (Py.str v1) ts1 (request_id_value p1 n1) =
  SOAP_RESPONSE_TEMPLATE_format SOAP_METHOD_NAME TARGET_NAMESPACE
    (Py.str v2) ts2 (request_id_value p2 n2) ->
  v1 = v2 /\ ts1 = ts2 /\ p1 = p2 /\ n1 = n2.
Proof.
  intros T1 T2 E.
  assert (A1 : Py.mem "<" (Py.str v1) = false) by (apply str_mem; reflexivity).
  assert (A2 : Py.mem "<" (Py.str v2) = false) by (apply str_mem; reflexivity).
  assert (I1 : Py.mem "<" (request_id_value p1 n1) = false)
    by (apply request_id_value_mem; reflexivity).
  assert (I2 : Py.mem "<" (request_id_value p2 n2) = false)
    by (apply request_id_value_mem; reflexivity).
  unfold SOAP_RESPONSE_TEMPLATE_format in E.
  set (a1 := Py.str v1) in *. set (a2 := Py.str v2) in *.
  set (i1 := request_id_value p1 n1) in *. set (i2 := request_id_value p2 n2) in *.
  repeat (apply append_cancel in E).
  apply split_at_literal in E; auto. destruct E as [Ea E].
  repeat (apply append_cancel in E).
  apply split_at_literal in E; auto. destruct E as [Et E].
  repeat (apply append_cancel in E).
  apply split_at_literal in E; auto. destruct E as [Ei _].
  subst a1 a2 i1 i2.
  apply str_inj in Ea. apply request_id_value_inj in Ei.
  tauto.
Qed.

Lemma reply_identifies_request_witness :
  Py.mem "<" "1700000000.5" = false /\
  (1007 = 1007 /\ "1700000000.5" = "1700000000.5" /\ 4242 = 4242 /\ 7 = 7).
Proof.
  split; [reflexivity |].
  apply (reply_identifies_request 1007 1007 4242 7 4242 7 "1700000000.5" "1700000000.5");
    reflexivity.
Defined.
